(** * rest_assured.testcases: REST API test-case mixins

    A shallow embedding of [src/rest_assured/testcases.py] (Python 2,
    Django REST framework).  The test methods are written in a small
    state-and-exception monad over a [World] that holds the database
    reached through the ORM, what [print] wrote, and the requests the
    test client sent together with their answers.  The host framework
    (URL reversing, the server behind the test client, the ORM manager
    of the model under test, [repr] of containers) is a parameter of the
    development: a [Framework] record. *)

From Stdlib Require Import ZArith List String Ascii Bool Lia DecimalString.
Import ListNotations.
Open Scope string_scope.
Open Scope list_scope.
Open Scope Z_scope.
Set Warnings "-register-all".

(** ** Python values *)

(** JSON-like data: what request bodies, response bodies and plain
    attributes hold.  [str] and [unicode] are identified (text), numbers
    are integers, and a dict is its items in iteration order with text
    keys. *)
Inductive value : Type :=
| VNone
| VBool (b : bool)
| VInt (z : Z)
| VStr (s : string)
| VList (l : list value)
| VDict (d : list (string * value)).

(** Any object an attribute can hold: plain data, a model instance
    (its [unicode()] text and attribute table) or a related manager
    (whose [.all()] yields [items]). *)
Inductive pyobj : Type :=
| PVal (v : value)
| PModel (text : string) (attrs : list (string * pyobj))
| PManager (text : string) (items : list pyobj).

Inductive exn : Type :=
| AssertionError
| TypeError
| AttributeError
| KeyError
| IndexError
| NoReverseMatch
| ObjectDoesNotExist
| MultipleObjectsReturned
| OtherError (name : string).

Inductive result (A : Type) : Type :=
| Ok (a : A)
| Err (e : exn).
Arguments Ok {A} a.
Arguments Err {A} e.

Definition exn_eqb (a b : exn) : bool :=
  match a, b with
  | AssertionError, AssertionError
  | TypeError, TypeError
  | AttributeError, AttributeError
  | KeyError, KeyError
  | IndexError, IndexError
  | NoReverseMatch, NoReverseMatch
  | ObjectDoesNotExist, ObjectDoesNotExist
  | MultipleObjectsReturned, MultipleObjectsReturned => true
  | OtherError x, OtherError y => String.eqb x y
  | _, _ => false
  end.

(** Lookup in an attribute table or in a dict's items. *)
Fixpoint assoc {A : Type} (k : string) (d : list (string * A)) : option A :=
  match d with
  | [] => None
  | (k', v) :: rest => if String.eqb k k' then Some v else assoc k rest
  end.

Definition has_key {A : Type} (k : string) (d : list (string * A)) : bool :=
  match assoc k d with Some _ => true | None => false end.

Definition int_of_bool (b : bool) : Z := if b then 1 else 0.

(** Python's [==] on data.  [bool] is a subclass of [int]; dicts compare
    by key, whatever the order of their items. *)
Fixpoint py_eq (a b : value) {struct a} : bool :=
  match a, b with
  | VNone, VNone => true
  | VBool x, VBool y => Bool.eqb x y
  | VBool x, VInt y => int_of_bool x =? y
  | VInt x, VBool y => x =? int_of_bool y
  | VInt x, VInt y => x =? y
  | VStr x, VStr y => String.eqb x y
  | VList l1, VList l2 =>
      (fix all2 (xs ys : list value) {struct xs} : bool :=
         match xs, ys with
         | [], [] => true
         | x :: xs', y :: ys' => py_eq x y && all2 xs' ys'
         | _, _ => false
         end) l1 l2
  | VDict d1, VDict d2 =>
      Nat.eqb (List.length d1) (List.length d2) &&
      (fix each (items : list (string * value)) {struct items} : bool :=
         match items with
         | [] => true
         | (k, v) :: rest =>
             match assoc k d2 with
             | Some w => py_eq v w
             | None => false
             end && each rest
         end) d1
  | _, _ => false
  end.

(** Truth value testing ([if x], [x or y]). *)
Definition truthy (v : value) : bool :=
  match v with
  | VNone => false
  | VBool b => b
  | VInt z => negb (z =? 0)
  | VStr s => negb (String.eqb s "")
  | VList l => match l with [] => false | _ => true end
  | VDict d => match d with [] => false | _ => true end
  end.

Definition is_none (v : value) : bool :=
  match v with VNone => true | _ => false end.

Definition is_substring (s t : string) : bool :=
  match String.index 0 s t with Some _ => true | None => false end.

Definition hashable (v : value) : bool :=
  match v with VList _ | VDict _ => false | _ => true end.

(** [x in c]. *)
Definition py_in (x c : value) : result bool :=
  match c with
  | VDict d =>
      match x with
      | VStr k => Ok (has_key k d)
      | _ => if hashable x then Ok false else Err TypeError
      end
  | VList l => Ok (existsb (py_eq x) l)
  | VStr t =>
      match x with
      | VStr s => Ok (is_substring s t)
      | _ => Err TypeError
      end
  | _ => Err TypeError
  end.

Fixpoint chars (s : string) : list value :=
  match s with
  | EmptyString => []
  | String c rest => VStr (String c EmptyString) :: chars rest
  end.

(** [for x in v]: the elements the loop visits. *)
Definition py_iter (v : value) : result (list value) :=
  match v with
  | VList l => Ok l
  | VDict d => Ok (map (fun kv => VStr (fst kv)) d)
  | VStr s => Ok (chars s)
  | _ => Err TypeError
  end.

(** [a + b]. *)
Definition py_add (a b : value) : result value :=
  match a, b with
  | VStr x, VStr y => Ok (VStr (x ++ y)%string)
  | VList x, VList y => Ok (VList (x ++ y))
  | VInt x, VInt y => Ok (VInt (x + y))
  | VInt x, VBool y => Ok (VInt (x + int_of_bool y))
  | VBool x, VInt y => Ok (VInt (int_of_bool x + y))
  | VBool x, VBool y => Ok (VInt (int_of_bool x + int_of_bool y))
  | _, _ => Err TypeError
  end.

(** [d.get(k, default)]: only a dict has the method. *)
Definition py_get (d : value) (k : string) (default : value) : result value :=
  match d with
  | VDict items =>
      Ok (match assoc k items with Some v => v | None => default end)
  | _ => Err AttributeError
  end.

(** [getattr(o, name)] on an object; [None] when the attribute is missing. *)
Definition obj_getattr (o : pyobj) (name : string) : option pyobj :=
  match o with
  | PModel _ attrs => assoc name attrs
  | _ => None
  end.

Definition obj_hasattr (o : pyobj) (name : string) : bool :=
  match obj_getattr o name with Some _ => true | None => false end.

(** [a == b] between an attribute of an object and plain data: a model
    instance or a manager never equals plain data. *)
Definition obj_eq (a : pyobj) (b : value) : bool :=
  match a with
  | PVal v => py_eq v b
  | _ => false
  end.

Definition decimal (z : Z) : string := NilZero.string_of_int (Z.to_int z).

(** ** Classes and attribute lookup *)

(** A class statement: its bases, the data attributes and the methods
    its body defines. *)
Record pyclass : Type := mkClass {
  cname : string;
  cbases : list string;
  cattrs : list (string * value);
  cmethods : list string
}.

(** [object] and the framework's [APITestCase] are not defined by this
    module; [APITestCase] only contributes the client and the assert
    methods, none of which is a test. *)
Definition object_class : pyclass :=
  mkClass "object" [] [] [].

Definition APITestCase : pyclass :=
  mkClass "APITestCase" ["object"] [] [].

Definition BaseRESTAPITestCase : pyclass :=
  mkClass "BaseRESTAPITestCase" ["APITestCase"]
    [ ("base_name", VNone);
      ("factory_class", VNone);
      ("LIST_SUFFIX", VStr "-list");
      ("DETAIL_SUFFIX", VStr "-detail");
      ("lookup_field", VStr "pk");
      ("user_factory", VNone);
      ("use_token_auth", VBool false);
      ("object", VNone);
      ("user", VNone) ]
    [ "get_factory_class"; "get_object"; "get_credentials"; "setUp" ].

Definition ListAPITestCaseMixin : pyclass :=
  mkClass "ListAPITestCaseMixin" ["object"] [] ["test_list"].

Definition DetailAPITestCaseMixin : pyclass :=
  mkClass "DetailAPITestCaseMixin" ["object"]
    [ ("attributes_to_check", VList [VStr "id"]) ]
    [ "test_detail"; "_check_attributes" ].

Definition CreateAPITestCaseMixin : pyclass :=
  mkClass "CreateAPITestCaseMixin" ["object"]
    [ ("create_data", VNone) ]
    [ "get_create_data"; "test_create"; "_get_create_name" ].

Definition DestroyAPITestCaseMixin : pyclass :=
  mkClass "DestroyAPITestCaseMixin" ["object"] []
    [ "test_destroy"; "_get_destroy_name" ].

Definition UpdateAPITestCaseMixin : pyclass :=
  mkClass "UpdateAPITestCaseMixin" ["object"]
    [ ("use_patch", VBool true);
      ("update_data", VNone);
      ("update_results", VNone) ]
    [ "get_update_data"; "get_update_results"; "test_update";
      "_get_update_name"; "_update_check_db" ].

Definition ReadRESTAPITestCaseMixin : pyclass :=
  mkClass "ReadRESTAPITestCaseMixin"
    ["ListAPITestCaseMixin"; "DetailAPITestCaseMixin"] [] [].

Definition WriteRESTAPITestCaseMixin : pyclass :=
  mkClass "WriteRESTAPITestCaseMixin"
    ["CreateAPITestCaseMixin"; "UpdateAPITestCaseMixin";
     "DestroyAPITestCaseMixin"] [] [].

Definition ReadWriteRESTAPITestCaseMixin : pyclass :=
  mkClass "ReadWriteRESTAPITestCaseMixin"
    ["ReadRESTAPITestCaseMixin"; "WriteRESTAPITestCaseMixin"] [] [].

(** The classes of the module, in the order of their definition. *)
Definition testcases : list pyclass :=
  [ object_class; APITestCase; BaseRESTAPITestCase;
    ListAPITestCaseMixin; DetailAPITestCaseMixin; CreateAPITestCaseMixin;
    DestroyAPITestCaseMixin; UpdateAPITestCaseMixin;
    ReadRESTAPITestCaseMixin; WriteRESTAPITestCaseMixin;
    ReadWriteRESTAPITestCaseMixin ].

Fixpoint find_class (table : list pyclass) (name : string) : option pyclass :=
  match table with
  | [] => None
  | c :: rest => if String.eqb name (cname c) then Some c else find_class rest name
  end.

Definition mem (x : string) (l : list string) : bool :=
  existsb (String.eqb x) l.

(** Method resolution order: Python's C3 linearization. *)
Module C3.

Definition in_tail (x : string) (seq : list string) : bool :=
  match seq with [] => false | _ :: t => mem x t end.

(** The first head that is in the tail of no sequence. *)
Fixpoint candidate (heads : list (list string)) (seqs : list (list string))
  : option string :=
  match heads with
  | [] => None
  | [] :: more => candidate more seqs
  | (h :: _) :: more =>
      if existsb (in_tail h) seqs then candidate more seqs else Some h
  end.

Definition drop_head (x : string) (seq : list string) : list string :=
  match seq with
  | [] => []
  | h :: t => if String.eqb x h then t else seq
  end.

Definition nonempty (seq : list string) : bool :=
  match seq with [] => false | _ => true end.

Fixpoint merge (fuel : nat) (seqs : list (list string)) : option (list string) :=
  match filter nonempty seqs with
  | [] => Some []
  | live =>
      match fuel with
      | O => None
      | S fuel' =>
          match candidate live live with
          | None => None
          | Some h =>
              option_map (cons h) (merge fuel' (map (drop_head h) live))
          end
      end
  end.

Fixpoint sequence {A : Type} (l : list (option A)) : option (list A) :=
  match l with
  | [] => Some []
  | None :: _ => None
  | Some x :: rest => option_map (cons x) (sequence rest)
  end.

Fixpoint linearize (fuel : nat) (table : list pyclass) (name : string)
  : option (list string) :=
  match fuel with
  | O => None
  | S fuel' =>
      match find_class table name with
      | None => None
      | Some c =>
          match sequence (map (linearize fuel' table) (cbases c)) with
          | None => None
          | Some parents =>
              let seqs := parents ++ [cbases c] in
              option_map (cons name)
                (merge (S (List.length (List.concat seqs))) seqs)
          end
      end
  end.

End C3.

(** [cls.__mro__] as class records; the class table bounds the depth of
    the hierarchy. *)
Definition mro (table : list pyclass) (name : string) : option (list pyclass) :=
  match C3.linearize (S (List.length table)) table name with
  | None => None
  | Some names => C3.sequence (map (find_class table) names)
  end.

Definition is_test_name (m : string) : bool := String.prefix "test" m.

Definition is_public (m : string) : bool := negb (String.prefix "_" m).

Fixpoint dedup (seen l : list string) : list string :=
  match l with
  | [] => []
  | x :: rest => if mem x seen then dedup seen rest else x :: dedup (x :: seen) rest
  end.

(** The methods an instance of the class answers to: those of every
    class of the resolution order, a name counted once. *)
Definition methods_of (table : list pyclass) (name : string) : list string :=
  match mro table name with
  | None => []
  | Some classes => dedup [] (List.concat (map cmethods classes))
  end.

(** The public test methods a class defines itself. *)
Definition own_tests (c : pyclass) : list string :=
  filter (fun m => is_test_name m && is_public m) (cmethods c).

(** The public test methods a class exposes, inherited ones included. *)
Definition exposed_tests (table : list pyclass) (name : string) : list string :=
  filter (fun m => is_test_name m && is_public m) (methods_of table name).

(** An instance of a test class as the methods see it: [self]. *)

(** One entry of [attributes_to_check]: an attribute name, or a sequence
    (tuple, list or set) of a key and a callable on the object. *)
Inductive elem : Type :=
| LStr (s : string)
| LCall (f : pyobj -> result pyobj).

Inductive seq_kind : Type := KTuple | KList | KSet.

Inductive entry : Type :=
| EName (name : string)
| ESeq (kind : seq_kind) (elems : list elem).

(** [inst_dict] is the instance's own [__dict__], [cls_mro] the
    resolution order of its class.  The two attributes that do not hold
    plain data are fields of their own: [object], the main test subject
    that [setUp] created, and [attributes_to_check] as the class has it
    (the mixin's default is [['id']]). *)
Record TestCase : Type := mkTestCase {
  inst_dict : list (string * value);
  cls_mro : list pyclass;
  object : pyobj;
  attributes_to_check : list entry
}.

Fixpoint class_getattr (classes : list pyclass) (name : string) : option value :=
  match classes with
  | [] => None
  | c :: rest =>
      match assoc name (cattrs c) with
      | Some v => Some v
      | None => class_getattr rest name
      end
  end.

(** Attribute lookup on [self]: the instance first, then the classes in
    resolution order. *)
Definition self_getattr (self : TestCase) (name : string) : option value :=
  match assoc name (inst_dict self) with
  | Some v => Some v
  | None => class_getattr (cls_mro self) name
  end.

(** [self.name] *)
Definition attr (self : TestCase) (name : string) : result value :=
  match self_getattr self name with
  | Some v => Ok v
  | None => Err AttributeError
  end.

(** [hasattr(self, name)] *)
Definition hasattr (self : TestCase) (name : string) : bool :=
  match self_getattr self name with Some _ => true | None => false end.

(** [getattr(self, name, default)] *)
Definition getattr_default (self : TestCase) (name : string) (default : value) : value :=
  match self_getattr self name with Some v => v | None => default end.

(** [self] takes the attribute [name] from the class [c]: neither the
    instance nor a class before [c] in the resolution order sets it. *)
Definition inherits (self : TestCase) (c : pyclass) (name : string) : Prop :=
  assoc name (inst_dict self) = None /\
  exists before after,
    cls_mro self = before ++ c :: after /\
    forall c', In c' before -> assoc name (cattrs c') = None.

(** ** The host framework *)

Inductive verb : Type := GET | POST | PUT | PATCH | DELETE.

(** A call of a method of the client: the method, the url, the data
    the test passes as the second positional argument ([None] when it
    passes none) and the keyword arguments handed on, which may carry
    data of their own. *)
Record request : Type := mkRequest {
  rverb : verb;
  rurl : string;
  rbody : value;
  rextra : list (string * value)
}.

(** A [rest_framework.response.Response] as the tests read it. *)
Module Response.
Record t : Type := make { status_code : Z; data : value }.
End Response.
Definition response : Type := Response.t.

(** [rest_framework.status] *)
Definition HTTP_200_OK : Z := 200.
Definition HTTP_201_CREATED : Z := 201.
Definition HTTP_204_NO_CONTENT : Z := 204.
Definition HTTP_400_BAD_REQUEST : Z := 400.

(** What the test methods call and do not define: [reverse]; a call of
    a method of [self.client], which the server behind it answers with a
    response, or which raises, and which may change the database; the
    manager [self.object.__class__.objects] over the database; and
    [repr] of a container. *)
Record Framework : Type := mkFramework {
  DB : Type;
  py_repr : value -> string;
  reverse : value -> list pyobj -> result string;
  serve : request -> DB -> result response * DB;
  objects_get : DB -> string -> pyobj -> result pyobj
}.

Section Mixins.

Context (fw : Framework).

(** ** Effects *)

(** The state a test runs in: the database, what was printed (the
    value each [print '\n%s' % v] formatted), and the calls made on the
    client, each with the response it returned or the exception it
    raised. *)
Record World : Type := mkWorld {
  db : DB fw;
  stdout : list value;
  exchanges : list (request * result response)
}.

Definition M (A : Type) : Type := World -> result A * World.

Definition ret {A : Type} (a : A) : M A := fun w => (Ok a, w).

Definition raise {A : Type} (e : exn) : M A := fun w => (Err e, w).

Definition bind {A B : Type} (m : M A) (k : A -> M B) : M B :=
  fun w =>
    match m w with
    | (Ok a, w') => k a w'
    | (Err e, w') => (Err e, w')
    end.

Definition lift {A : Type} (r : result A) : M A := fun w => (r, w).

Notation "x <- m ;; k" := (bind m (fun x => k))
  (at level 61, m at next level, right associativity).
Notation "m ;; k" := (bind m (fun _ => k))
  (at level 61, right associativity).

(** [print '\n%s' % v] *)
Definition print (v : value) : M unit :=
  fun w => (Ok tt, mkWorld (db w) (stdout w ++ [v]) (exchanges w)).

(** [self.client.get], [.post], [.put], [.patch], [.delete] *)
Definition client (v : verb) (url : string) (body : value)
    (kwargs : list (string * value)) : M response :=
  fun w =>
    let req := mkRequest v url body kwargs in
    let (r, db') := serve fw req (db w) in
    (r, mkWorld db' (stdout w) (exchanges w ++ [(req, r)])).

(** [self.object.__class__.objects.get] with the keyword [field] set to [v]. *)
Definition model_get (field : string) (v : pyobj) : M pyobj :=
  fun w => (objects_get fw (db w) field v, w).

(** [self.assertEqual] on status codes. *)
Definition assertEqual_status (a b : Z) : M unit :=
  if a =? b then ret tt else raise AssertionError.

(** [self.assertEqual(a, b)] *)
Definition assertEqual (a : pyobj) (b : value) : M unit :=
  if obj_eq a b then ret tt else raise AssertionError.

(** [self.assertIn(x, c)] *)
Definition assertIn (x c : value) : M unit :=
  match py_in x c with
  | Ok true => ret tt
  | Ok false => raise AssertionError
  | Err e => raise e
  end.

(** [self.assertRaises(expected, f, ...)] *)
Definition assertRaises {A : Type} (expected : exn) (call : M A) : M unit :=
  fun w =>
    match call w with
    | (Ok _, w') => (Err AssertionError, w')
    | (Err e, w') =>
        if exn_eqb e expected then (Ok tt, w') else (Err e, w')
    end.

(** [unicode(o)] *)
Definition unicode (o : pyobj) : string :=
  match o with
  | PVal VNone => "None"
  | PVal (VBool true) => "True"
  | PVal (VBool false) => "False"
  | PVal (VInt z) => decimal z
  | PVal (VStr s) => s
  | PVal v => py_repr fw v
  | PModel text _ => text
  | PManager text _ => text
  end.

(** [getattr(o, name)] *)
Definition getattr (o : pyobj) (name : string) : M pyobj :=
  match obj_getattr o name with
  | Some a => ret a
  | None => raise AttributeError
  end.

(** [getattr(self.object, self.lookup_field)] *)
Definition object_id_of (self : TestCase) : result (string * pyobj) :=
  match attr self "lookup_field" with
  | Err e => Err e
  | Ok (VStr field) =>
      match obj_getattr (object self) field with
      | Some a => Ok (field, a)
      | None => Err AttributeError
      end
  | Ok _ => Err TypeError
  end.

(** [self.base_name + self.LIST_SUFFIX] *)
Definition list_view_name (self : TestCase) : result value :=
  match attr self "base_name" with
  | Err e => Err e
  | Ok base =>
      match attr self "LIST_SUFFIX" with
      | Err e => Err e
      | Ok suffix => py_add base suffix
      end
  end.

(** [self.base_name + self.DETAIL_SUFFIX] *)
Definition detail_view_name (self : TestCase) : result value :=
  match attr self "base_name" with
  | Err e => Err e
  | Ok base =>
      match attr self "DETAIL_SUFFIX" with
      | Err e => Err e
      | Ok suffix => py_add base suffix
      end
  end.

(** ** ListAPITestCaseMixin *)

Definition test_list (self : TestCase) (kwargs : list (string * value))
  : M response :=
  name <- lift (list_view_name self) ;;
  listview <- lift (reverse fw name []) ;;
  response <- client GET listview VNone kwargs ;;
  (if negb (Response.status_code response =? HTTP_200_OK)
   then print (Response.data response) else ret tt) ;;
  assertEqual_status (Response.status_code response) HTTP_200_OK ;;
  assertIn (VStr "results") (Response.data response) ;;
  ret response.

(** ** DetailAPITestCaseMixin *)

(** [attr[i]] on an entry that is a sequence. *)
Definition seq_item (kind : seq_kind) (elems : list elem) (i : nat) : result elem :=
  match kind with
  | KSet => Err TypeError
  | _ => match nth_error elems i with
         | Some x => Ok x
         | None => Err IndexError
         end
  end.

(** [f(o)] *)
Definition call (f : elem) (o : pyobj) : result pyobj :=
  match f with
  | LCall g => g o
  | LStr _ => Err TypeError
  end.

(** [data[key]] *)
Definition getitem (data : value) (key : elem) : result value :=
  match data with
  | VDict d =>
      match key with
      | LStr k => match assoc k d with
                  | Some v => Ok v
                  | None => Err KeyError
                  end
      | LCall _ => Err KeyError
      end
  | _ => Err TypeError
  end.

(** The body of the loop of [_check_attributes]. *)
Definition check_attribute (self : TestCase) (data : value) (a : entry) : M unit :=
  match a with
  | ESeq kind elems =>
      f <- lift (seq_item kind elems 1) ;;
      value <- lift (call f (object self)) ;;
      key <- lift (seq_item kind elems 0) ;;
      expected <- lift (getitem data key) ;;
      assertEqual value expected
  | EName name =>
      a <- getattr (object self) name ;;
      expected <- lift (getitem data (LStr name)) ;;
      assertEqual (PVal (VStr (unicode a))) expected
  end.

Fixpoint for_each {A : Type} (body : A -> M unit) (l : list A) : M unit :=
  match l with
  | [] => ret tt
  | x :: rest => body x ;; for_each body rest
  end.

Definition _check_attributes (self : TestCase) (data : value) : M unit :=
  for_each (check_attribute self data) (attributes_to_check self).

Definition test_detail (self : TestCase) (kwargs : list (string * value))
  : M response :=
  id <- lift (object_id_of self) ;;
  name <- lift (detail_view_name self) ;;
  detailview <- lift (reverse fw name [PVal (VStr (unicode (snd id)))]) ;;
  response <- client GET detailview VNone kwargs ;;
  (if negb (Response.status_code response =? HTTP_200_OK)
   then print (Response.data response) else ret tt) ;;
  assertEqual_status (Response.status_code response) HTTP_200_OK ;;
  _check_attributes self (Response.data response) ;;
  ret response.

(** ** CreateAPITestCaseMixin *)

Definition get_create_data (self : TestCase) : result value :=
  attr self "create_data".

Definition _get_create_name (self : TestCase) : result value :=
  if hasattr self "create_name" then attr self "create_name"
  else list_view_name self.

Definition test_create (self : TestCase) (data : value)
    (kwargs : list (string * value)) : M (response * pyobj) :=
  data <- (if is_none data then lift (get_create_data self) else ret data) ;;
  name <- lift (_get_create_name self) ;;
  create_view <- lift (reverse fw name []) ;;
  response <- client POST create_view
                (if truthy data then data else VDict []) kwargs ;;
  (if negb (Response.status_code response =? HTTP_201_CREATED)
   then print (Response.data response) else ret tt) ;;
  assertEqual_status (Response.status_code response) HTTP_201_CREATED ;;
  id <- lift (py_get (Response.data response) "id" VNone) ;;
  created <- model_get "id" (PVal id) ;;
  ret (response, created).

(** ** DestroyAPITestCaseMixin *)

Definition _get_destroy_name (self : TestCase) : result value :=
  if hasattr self "destroy_name" then attr self "destroy_name"
  else detail_view_name self.

Definition test_destroy (self : TestCase) (kwargs : list (string * value))
  : M response :=
  id <- lift (object_id_of self) ;;
  name <- lift (_get_destroy_name self) ;;
  destroyview <- lift (reverse fw name [snd id]) ;;
  response <- client DELETE destroyview VNone kwargs ;;
  assertEqual_status (Response.status_code response) HTTP_204_NO_CONTENT ;;
  assertRaises ObjectDoesNotExist (model_get (fst id) (snd id)) ;;
  ret response.

(** ** UpdateAPITestCaseMixin *)

Definition get_update_data (self : TestCase) : result value :=
  attr self "update_data".

Definition get_update_results (self : TestCase) (data : value) : value :=
  getattr_default self "update_results" data.

Definition _get_update_name (self : TestCase) : result value :=
  if hasattr self "update_name" then attr self "update_name"
  else detail_view_name self.

(** [[unicode(item.pk) for item in attribute.all()]] *)
Fixpoint related_pks (items : list pyobj) : M (list value) :=
  match items with
  | [] => ret []
  | item :: rest =>
      pk <- getattr item "pk" ;;
      pks <- related_pks rest ;;
      ret (VStr (unicode pk) :: pks)
  end.

(** The foreign-key branch: the text the related object is known by. *)
Definition related_key (related : pyobj) : M pyobj :=
  if obj_hasattr related "uuid"
  then uuid <- getattr related "uuid" ;; ret (PVal (VStr (unicode uuid)))
  else pk <- getattr related "pk" ;; ret (PVal (VStr (unicode pk))).

(** The loop of [_update_check_db] over [data.iteritems()]. *)
Fixpoint check_items (obj : pyobj) (items : list (string * value))
    (results : value) : M value :=
  match items with
  | [] => ret VNone
  | (key, value) :: rest =>
      if obj_hasattr obj (key ++ "_id")%string then
        related <- getattr obj key ;;
        attribute <- related_key related ;;
        expected <- lift (py_get results key value) ;;
        assertEqual attribute expected ;;
        check_items obj rest results
      else
        attribute <- getattr obj key ;;
        match attribute with
        | PManager _ related =>
            posted <- lift (py_iter value) ;;
            for_each (fun pk => pks <- related_pks related ;;
                                assertIn pk (VList pks)) posted ;;
            ret (VBool true)
        | _ =>
            expected <- lift (py_get results key value) ;;
            assertEqual attribute expected ;;
            check_items obj rest results
        end
  end.

Definition _update_check_db (obj : pyobj) (data results : value) : M value :=
  let results := if is_none results then VDict [] else results in
  match data with
  | VDict items => check_items obj items results
  | _ => raise AttributeError
  end.

Definition test_update (self : TestCase) (data results use_patch : value)
    (kwargs : list (string * value)) : M (response * pyobj) :=
  id <- lift (object_id_of self) ;;
  name <- lift (_get_update_name self) ;;
  update_view <- lift (reverse fw name [snd id]) ;;
  data <- (if is_none data then lift (get_update_data self) else ret data) ;;
  let results :=
    if is_none results then get_update_results self data else results in
  let use_patch :=
    if is_none use_patch then attr self "use_patch" else Ok use_patch in
  use_patch <- lift use_patch ;;
  response <- (if truthy use_patch
               then client PATCH update_view data []
               else client PUT update_view data []) ;;
  (if Response.status_code response =? HTTP_400_BAD_REQUEST
   then print (Response.data response) else ret tt) ;;
  assertEqual_status (Response.status_code response) HTTP_200_OK ;;
  updated <- model_get (fst id) (snd id) ;;
  _update_check_db updated data results ;;
  ret (response, updated).

(** ** What the database check establishes *)

(** The text a related object is compared by: its [uuid] when it has
    one, else its [pk], as a unicode string. *)
Definition related_text (related : pyobj) : option string :=
  match obj_getattr related "uuid" with
  | Some uuid => Some (unicode uuid)
  | None =>
      match obj_getattr related "pk" with
      | Some pk => Some (unicode pk)
      | None => None
      end
  end.

(** The pks of the related objects as unicode strings, when each has one. *)
Fixpoint pk_texts (items : list pyobj) : option (list value) :=
  match items with
  | [] => Some []
  | item :: rest =>
      match obj_getattr item "pk", pk_texts rest with
      | Some pk, Some pks => Some (VStr (unicode pk) :: pks)
      | _, _ => None
      end
  end.

Definition is_manager (o : pyobj) : bool :=
  match o with PManager _ _ => true | _ => false end.

(** [Checked obj results items ret]: every assertion made over [items]
    holds of the stored object [obj], and the check returns [ret].  A
    key [k] is a foreign key when the object has an attribute [k_id]; it
    is a many-to-many relation when its attribute is a manager. *)
Inductive Checked (obj : pyobj) (results : value)
  : list (string * value) -> value -> Prop :=
| Checked_done :
    Checked obj results [] VNone
| Checked_foreign_key key value rest ret related text expected :
    obj_hasattr obj (key ++ "_id")%string = true ->
    obj_getattr obj key = Some related ->
    related_text related = Some text ->
    py_get results key value = Ok expected ->
    py_eq (VStr text) expected = true ->
    Checked obj results rest ret ->
    Checked obj results ((key, value) :: rest) ret
| Checked_plain key value rest ret attribute expected :
    obj_hasattr obj (key ++ "_id")%string = false ->
    obj_getattr obj key = Some attribute ->
    is_manager attribute = false ->
    py_get results key value = Ok expected ->
    obj_eq attribute expected = true ->
    Checked obj results rest ret ->
    Checked obj results ((key, value) :: rest) ret
| Checked_many_to_many key value rest text related posted :
    obj_hasattr obj (key ++ "_id")%string = false ->
    obj_getattr obj key = Some (PManager text related) ->
    py_iter value = Ok posted ->
    (posted = [] \/
     exists pks, pk_texts related = Some pks /\
                 forall pk, In pk posted -> existsb (py_eq pk) pks = true) ->
    Checked obj results ((key, value) :: rest) (VBool true).

(** ** Observing a run *)

(** The run from [w] to [w'] called the client once, and [r] is the
    response the client handed back. *)
Definition answered (w w' : World) (r : response) : Prop :=
  exists req, exchanges w' = exchanges w ++ [(req, Ok r)].

(** A computation that leaves the world as it found it. *)
Definition pure {A : Type} (m : M A) : Prop :=
  forall w, snd (m w) = w.

End Mixins.

Arguments mkWorld {fw} db stdout exchanges.
Arguments db {fw} w.
Arguments stdout {fw} w.
Arguments exchanges {fw} w.
Arguments ret {fw A} a w.
Arguments raise {fw A} e w.
Arguments bind {fw A B} m k w.
Arguments lift {fw A} r w.
Arguments print {fw} v w.
Arguments client {fw} v url body kwargs w.
Arguments model_get {fw} field v w.
Arguments assertEqual_status {fw} a b.
Arguments assertEqual {fw} a b.
Arguments assertIn {fw} x c.
Arguments assertRaises {fw A} expected call w.
Arguments getattr {fw} o name.
Arguments for_each {fw A} body l.
Arguments answered {fw} w w' r.
Arguments Checked_done {fw obj results}.

(** ** BaseRESTAPITestCase: the fixtures of a test *)

Section Fixtures.

Context (fw : Framework).

(** A factory class: [create()] stores an instance and returns it (or
    raises); [factory_attrs] are the class attributes of the factory,
    [raw_password] among them when it is a user factory. *)
Record factory : Type := mkFactory {
  create : DB fw -> result pyobj * DB fw;
  factory_attrs : list (string * value)
}.

(** What [setUp] calls beside the factories:
    [Token.objects.get(user=u)], [u.get_username()], and
    [self.client.login] with the credentials as keywords, which answers
    whether they were accepted. *)
Record AuthFramework : Type := mkAuth {
  token_get : DB fw -> pyobj -> result pyobj;
  get_username : pyobj -> result value;
  client_login : value -> DB fw -> bool * DB fw
}.

(** The two ways the client is told who is asking. *)
Inductive auth_call : Type :=
| Login (credentials : value) (accepted : bool)
| Credentials (HTTP_AUTHORIZATION : value).

(** The state [setUp] runs in: the world of the tests and the
    authentication calls made on the client. *)
Record Session : Type := mkSession {
  world : World fw;
  auth_calls : list auth_call
}.

(** [self] with the attributes that hold factories and the user:
    [user_factory] and [factory_class] are [None] in the base class. *)
Record Fixture : Type := mkFixture {
  base : TestCase;
  user_factory : option factory;
  factory_class : option factory;
  user : option pyobj
}.

Context (auth : AuthFramework).

Definition S (A : Type) : Type := Session -> result A * Session.

Definition sret {A : Type} (a : A) : S A := fun s => (Ok a, s).

Definition sbind {A B : Type} (m : S A) (k : A -> S B) : S B :=
  fun s =>
    match m s with
    | (Ok a, s') => k a s'
    | (Err e, s') => (Err e, s')
    end.

Definition slift {A : Type} (r : result A) : S A := fun s => (r, s).

Notation "x <- m ;; k" := (sbind m (fun x => k))
  (at level 61, m at next level, right associativity).
Notation "m ;; k" := (sbind m (fun _ => k))
  (at level 61, right associativity).

Definition with_db (s : Session) (d : DB fw) : Session :=
  mkSession (mkWorld d (stdout (world s)) (exchanges (world s))) (auth_calls s).

(** [factory.create()]; [None] has no [create]. *)
Definition factory_create (f : option factory) : S pyobj :=
  fun s =>
    match f with
    | None => (Err AttributeError, s)
    | Some f => let (r, d) := create f (db (world s)) in (r, with_db s d)
    end.

(** [Token.objects.get(user=u)] *)
Definition token_of (u : pyobj) : S pyobj :=
  fun s => (token_get auth (db (world s)) u, s).

(** [self.client.credentials(HTTP_AUTHORIZATION=header)] *)
Definition client_credentials (header : value) : S unit :=
  fun s => (Ok tt, mkSession (world s) (auth_calls s ++ [Credentials header])).

(** [self.client.login] with the items of [credentials] as keywords. *)
Definition login (credentials : value) : S bool :=
  fun s =>
    let (accepted, d) := client_login auth credentials (db (world s)) in
    (Ok accepted,
     mkSession (mkWorld d (stdout (world s)) (exchanges (world s)))
       (auth_calls s ++ [Login credentials accepted])).

(** ['Token ' + key] *)
Definition token_header (key : pyobj) : result value :=
  match key with
  | PVal k => py_add (VStr "Token ") k
  | _ => Err TypeError
  end.

Definition get_factory_class (self : Fixture) : option factory :=
  factory_class self.

Definition get_object (self : Fixture) (f : option factory) : S pyobj :=
  factory_create f.

Definition get_credentials (self : Fixture) (u : pyobj) : result value :=
  match get_username auth u with
  | Err e => Err e
  | Ok name =>
      match user_factory self with
      | None => Err AttributeError
      | Some f =>
          match assoc "raw_password" (factory_attrs f) with
          | None => Err AttributeError
          | Some password =>
              Ok (VDict [("username", name); ("password", password)])
          end
      end
  end.

Definition set_user (self : Fixture) (u : pyobj) : Fixture :=
  mkFixture (base self) (user_factory self) (factory_class self) (Some u).

Definition set_object (self : Fixture) (o : pyobj) : Fixture :=
  mkFixture
    (mkTestCase (inst_dict (base self)) (cls_mro (base self)) o
       (attributes_to_check (base self)))
    (user_factory self) (factory_class self) (user self).

Definition setUp (self : Fixture) : S Fixture :=
  self <- match user_factory self with
          | Some f =>
              u <- factory_create (Some f) ;;
              let self := set_user self u in
              use_token_auth <- slift (attr (base self) "use_token_auth") ;;
              (if truthy use_token_auth then
                 token <- token_of u ;;
                 key <- slift (match obj_getattr token "key" with
                               | Some k => Ok k
                               | None => Err AttributeError
                               end) ;;
                 header <- slift (token_header key) ;;
                 client_credentials header
               else
                 credentials <- slift (get_credentials self u) ;;
                 login credentials ;;
                 sret tt) ;;
              sret self
          | None => sret self
          end ;;
  o <- get_object self (get_factory_class self) ;;
  sret (set_object self o).

End Fixtures.

Arguments mkFactory {fw} _ _.
Arguments create {fw} _ _.
Arguments factory_attrs {fw} _.
Arguments mkAuth {fw} _ _ _.
Arguments mkSession {fw} _ _.
Arguments world {fw} _.
Arguments auth_calls {fw} _.
Arguments mkFixture {fw} _ _ _ _.
Arguments base {fw} _.
Arguments user_factory {fw} _.
Arguments factory_class {fw} _.
Arguments user {fw} _.
Arguments token_get {fw} _ _ _.
Arguments get_username {fw} _ _.
Arguments client_login {fw} _ _ _.

(** ** A small framework to run the tests against *)

(** An in-memory stand-in for the host framework: routes named
    [language-list] and [language-detail], a table of model instances
    looked up by attribute, and a server chosen per test. *)
Module Demo.

(** Containers are not printed by what they hold here. *)
Definition repr (v : value) : string := "<container>".

Definition arg_text (o : pyobj) : string :=
  match o with
  | PVal (VStr s) => s
  | PVal (VInt z) => decimal z
  | PModel text _ => text
  | _ => "-"
  end.

Definition routes : list string :=
  ["language-list"; "language-detail"; "language_list"; "language-create"].

Definition route (name : value) (args : list pyobj) : result string :=
  match name with
  | VStr s =>
      if mem s routes
      then Ok (String.concat "/" (s :: map arg_text args))
      else Err NoReverseMatch
  | _ => Err NoReverseMatch
  end.

Definition same (a b : pyobj) : bool :=
  match a, b with
  | PVal x, PVal y => py_eq x y
  | _, _ => false
  end.

Definition matches (field : string) (v : pyobj) (row : pyobj) : bool :=
  match obj_getattr row field with
  | Some a => same a v
  | None => false
  end.

Definition get (rows : list pyobj) (field : string) (v : pyobj) : result pyobj :=
  match filter (matches field v) rows with
  | [] => Err ObjectDoesNotExist
  | [row] => Ok row
  | _ => Err MultipleObjectsReturned
  end.

(** A server that answers every request with [r] and leaves [after rows]
    in the table. *)
Definition answer (r : response) (after : list pyobj -> list pyobj)
  : request -> list pyobj -> result response * list pyobj :=
  fun _ rows => (Ok r, after rows).

Definition framework
    (server : request -> list pyobj -> result response * list pyobj)
  : Framework :=
  mkFramework (list pyobj) repr route server get.

Definition tag (pk : Z) : pyobj :=
  PModel "tag" [("pk", PVal (VInt pk)); ("id", PVal (VInt pk))].

Definition family : pyobj :=
  PModel "Germanic"
    [("pk", PVal (VInt 7)); ("id", PVal (VInt 7))].

(** The main object: a language with a foreign key and a many-to-many
    relation. *)
Definition english : pyobj :=
  PModel "English"
    [ ("pk", PVal (VInt 1)); ("id", PVal (VInt 1));
      ("code", PVal (VStr "en"));
      ("family", family); ("family_id", PVal (VInt 7));
      ("tags", PManager "tags" [tag 1; tag 2]) ].

Definition renamed : pyobj :=
  PModel "English"
    [ ("pk", PVal (VInt 1)); ("id", PVal (VInt 1));
      ("code", PVal (VStr "eng"));
      ("family", family); ("family_id", PVal (VInt 7));
      ("tags", PManager "tags" [tag 1; tag 2]) ].

Definition french : pyobj :=
  PModel "French"
    [ ("pk", PVal (VInt 2)); ("id", PVal (VInt 2));
      ("code", PVal (VStr "fr")) ].

(** A test class as a user writes it. *)
Definition LanguageRESTAPITestCase : pyclass :=
  mkClass "LanguageRESTAPITestCase"
    ["ReadWriteRESTAPITestCaseMixin"; "BaseRESTAPITestCase"]
    [("base_name", VStr "language")] [].

(** The same with the list suffix of another router. *)
Definition UnderscoreTestCase : pyclass :=
  mkClass "UnderscoreTestCase"
    ["ReadWriteRESTAPITestCaseMixin"; "BaseRESTAPITestCase"]
    [("base_name", VStr "language"); ("LIST_SUFFIX", VStr "_list")] [].

(** The same with a route of its own for creation. *)
Definition NamedCreateTestCase : pyclass :=
  mkClass "NamedCreateTestCase"
    ["ReadWriteRESTAPITestCaseMixin"; "BaseRESTAPITestCase"]
    [("base_name", VStr "language"); ("create_name", VStr "language-create")] [].

Definition classes : list pyclass :=
  testcases ++ [LanguageRESTAPITestCase; UnderscoreTestCase; NamedCreateTestCase].

Definition instance (cls : string) (checks : list entry) : TestCase :=
  mkTestCase []
    (match mro classes cls with Some l => l | None => [] end)
    english checks.

Definition case : TestCase := instance "LanguageRESTAPITestCase" [EName "code"].

(** The world before the test: the table, nothing printed, nothing sent. *)
Definition world (fw : Framework) (rows : DB fw) : World fw :=
  mkWorld rows [] [].

Definition unchanged (rows : list pyobj) : list pyobj := rows.

(** Responses of the server, and the frameworks that give them. *)
Definition page : response :=
  Response.make 200 (VDict [("results", VList [VDict [("code", VStr "en")]])]).

Definition not_found : response :=
  Response.make 404 (VDict [("detail", VStr "Not found.")]).

Definition detail : response :=
  Response.make 200 (VDict [("id", VStr "1"); ("code", VStr "en")]).

Definition created : response :=
  Response.make 201 (VDict [("id", VInt 2); ("code", VStr "fr")]).

Definition updated : response :=
  Response.make 200 (VDict [("code", VStr "eng")]).

Definition no_content : response :=
  Response.make 204 VNone.

Definition listing : Framework := framework (answer page unchanged).

Definition missing : Framework := framework (answer not_found unchanged).

Definition detailing : Framework := framework (answer detail unchanged).

Definition creating : Framework :=
  framework (answer created (fun rows => rows ++ [french])).

(** Answers 201 and stores nothing. *)
Definition forgetting : Framework := framework (answer created unchanged).

Definition updating : Framework :=
  framework (answer updated (fun _ => [renamed])).

Definition destroying : Framework :=
  framework (answer no_content (fun _ => [])).

(** Answers 204 and deletes nothing. *)
Definition keeping : Framework := framework (answer no_content unchanged).

(** Request data of an update: a plain attribute. *)
Definition patch : value := VDict [("code", VStr "eng")].

(** Request data of an update of the many-to-many relation, the pks
    posted as the integers they are. *)
Definition retag : value := VDict [("tags", VList [VInt 1; VInt 2])].

(** The same with the pks posted as text. *)
Definition retag_text : value := VDict [("tags", VList [VStr "1"; VStr "2"])].

Definition code_of (o : pyobj) : result pyobj :=
  match obj_getattr o "code" with
  | Some a => Ok a
  | None => Err AttributeError
  end.

(** Answers 200 with a list of names, ['results'] among them. *)
Definition names : response :=
  Response.make 200 (VList [VStr "results"]).

Definition naming : Framework := framework (answer names unchanged).

(** A test class that sets [create_data]. *)
Definition FrenchTestCase : pyclass :=
  mkClass "FrenchTestCase"
    ["ReadWriteRESTAPITestCaseMixin"; "BaseRESTAPITestCase"]
    [("base_name", VStr "language");
     ("create_data", VDict [("code", VStr "fr")])] [].

Definition french_case : TestCase :=
  mkTestCase []
    (match mro (classes ++ [FrenchTestCase]) "FrenchTestCase" with
     | Some l => l
     | None => []
     end)
    english [EName "code"].

Definition id_of (o : pyobj) : result pyobj :=
  match obj_getattr o "id" with
  | Some a => Ok a
  | None => Err AttributeError
  end.

(** A test class that forgets [base_name]. *)
Definition UnnamedTestCase : pyclass :=
  mkClass "UnnamedTestCase"
    ["ReadWriteRESTAPITestCaseMixin"; "BaseRESTAPITestCase"] [] [].

(** A test class whose routes are not in the url configuration. *)
Definition UnroutedTestCase : pyclass :=
  mkClass "UnroutedTestCase"
    ["ReadWriteRESTAPITestCaseMixin"; "BaseRESTAPITestCase"]
    [("base_name", VStr "country")] [].

(** A test class that authenticates with a token. *)
Definition TokenTestCase : pyclass :=
  mkClass "TokenTestCase"
    ["ReadWriteRESTAPITestCaseMixin"; "BaseRESTAPITestCase"]
    [("base_name", VStr "language"); ("use_token_auth", VBool true)] [].

Definition more_classes : list pyclass :=
  classes ++ [UnnamedTestCase; UnroutedTestCase; TokenTestCase].

Definition instance_of (cls : string) (o : pyobj) (checks : list entry) : TestCase :=
  mkTestCase []
    (match mro more_classes cls with Some l => l | None => [] end)
    o checks.

Definition unnamed : TestCase := instance_of "UnnamedTestCase" english [EName "code"].

Definition unrouted : TestCase := instance_of "UnroutedTestCase" english [EName "code"].

(** The test class with the mixin's own [attributes_to_check]. *)
Definition by_id : TestCase := instance_of "LanguageRESTAPITestCase" english [EName "id"].

(** Answers 200 with the id as the integer it is. *)
Definition numbered : response :=
  Response.make 200 (VDict [("id", VInt 1); ("code", VStr "en")]).

Definition numbering : Framework := framework (answer numbered unchanged).

(** Answers 201 with no body. *)
Definition bare : response := Response.make 201 VNone.

Definition bare_creating : Framework :=
  framework (answer bare (fun rows => rows ++ [french])).

(** Answers 200 with the list of an unpaginated view. *)
Definition unpaginated : response :=
  Response.make 200 (VList [VDict [("code", VStr "en")]]).

Definition unpaginating : Framework := framework (answer unpaginated unchanged).

(** Answers 204 and leaves the row twice. *)
Definition doubling : Framework :=
  framework (answer no_content (fun rows => rows ++ rows)).

(** Fixtures: a user, her token, and the factories. *)
Definition alice : pyobj :=
  PModel "alice" [("pk", PVal (VInt 5)); ("username", PVal (VStr "alice"))].

Definition alice_token : pyobj :=
  PModel "abc123" [("key", PVal (VStr "abc123")); ("user_id", PVal (VInt 5))].

Definition UserFactory : factory listing :=
  @mkFactory listing (fun rows : list pyobj => (Ok alice, rows ++ [alice]))
    [("raw_password", VStr "bellbottoms")].

Definition LanguageFactory : factory listing :=
  @mkFactory listing (fun rows : list pyobj => (Ok english, rows ++ [english])) [].

Definition username_of (u : pyobj) : result value :=
  match obj_getattr u "username" with
  | Some (PVal v) => Ok v
  | _ => Err AttributeError
  end.

Definition token_for (rows : list pyobj) (u : pyobj) : result pyobj :=
  match obj_getattr u "pk" with
  | Some (PVal (VInt 5)) => Ok alice_token
  | _ => Err ObjectDoesNotExist
  end.

(** An authentication backend that accepts every login, and one that
    refuses every login. *)
Definition accepting : AuthFramework listing :=
  @mkAuth listing token_for username_of (fun _ (rows : list pyobj) => (true, rows)).


(** A test before [setUp]: no object yet. *)
Definition fresh (cls : string) : TestCase :=
  instance_of cls (PVal VNone) [EName "code"].

Definition anonymous : Fixture listing :=
  mkFixture (fresh "LanguageRESTAPITestCase") None (Some LanguageFactory) None.

Definition member : Fixture listing :=
  mkFixture (fresh "LanguageRESTAPITestCase")
    (Some UserFactory) (Some LanguageFactory) None.

Definition token_member : Fixture listing :=
  mkFixture (fresh "TokenTestCase")
    (Some UserFactory) (Some LanguageFactory) None.

Definition unmade : Fixture listing :=
  mkFixture (fresh "LanguageRESTAPITestCase") None None None.

Definition session : Session listing := mkSession (world listing []) [].

End Demo.

(** * Properties *)

Section Properties.

Context (fw : Framework).

Lemma app_one_neq {A : Type} (l : list A) (x : A) : l = l ++ [x] -> False.
Proof.
  intro H. apply (f_equal (@List.length A)) in H.
  rewrite length_app in H. simpl in H. lia.
Qed.

Lemma app_one_inj {A : Type} (l : list A) (x y : A) :
  l ++ [x] = l ++ [y] -> x = y.
Proof.
  intro H. apply app_inv_head in H. congruence.
Qed.

Ltac unfold_m :=
  unfold assertEqual_status, assertIn, assertRaises, assertEqual, getattr,
    print, client, model_get, lift, bind, ret, raise in *.

Ltac step :=
  match goal with
  | H : (_, _) = (_, _) |- _ => inversion H; subst; clear H
  | H : Ok _ = Ok _ |- _ => inversion H; subst; clear H
  | H : context [match ?x with _ => _ end] |- _ => destruct x eqn:?
  | H : context [if ?x then _ else _] |- _ => destruct x eqn:?
  end.

Ltac run := unfold_m; repeat (step; simpl in *); try discriminate.

Ltac no_answer :=
  match goal with
  | H : answered ?w ?w _ |- _ =>
      destruct H as [? H]; exfalso; exact (app_one_neq _ _ H)
  | H : answered ?w (mkWorld _ _ (exchanges ?w)) _ |- _ =>
      destruct H as [? H]; simpl in H; exfalso; exact (app_one_neq _ _ H)
  end.

Ltac the_answer :=
  match goal with
  | H : answered _ _ _ |- _ =>
      destruct H as [? H]; simpl in H; apply app_one_inj in H;
      inversion H; subst; clear H
  end.

Lemma eqb_status (a b : Z) : (a =? b) = true <-> a = b.
Proof. apply Z.eqb_eq. Qed.

Lemma test_list_returns self kwargs w r w' :
  test_list fw self kwargs w = (Ok r, w') ->
  answered w w' r /\ Response.status_code r = HTTP_200_OK /\
  py_in (VStr "results") (Response.data r) = Ok true.
Proof.
  unfold test_list, answered. intro H. run.
  all: repeat split; try (eexists; reflexivity); try (apply Z.eqb_eq; assumption).
Qed.

Lemma test_list_rejects self kwargs w out w' r :
  test_list fw self kwargs w = (out, w') ->
  answered w w' r -> Response.status_code r <> HTTP_200_OK ->
  out = Err AssertionError.
Proof.
  unfold test_list. intros H A S. run.
  all: try no_answer; try the_answer; try reflexivity.
  all: try (exfalso; apply S; apply Z.eqb_eq; assumption).
Qed.


Lemma pure_ret {A : Type} (a : A) : pure fw (ret a).
Proof. intro w. reflexivity. Qed.

Lemma pure_raise {A : Type} (e : exn) : pure fw (@raise fw A e).
Proof. intro w. reflexivity. Qed.

Lemma pure_lift {A : Type} (r : result A) : pure fw (lift r).
Proof. intro w. reflexivity. Qed.

Lemma pure_bind {A B : Type} (m : M fw A) (k : A -> M fw B) :
  pure fw m -> (forall a, pure fw (k a)) -> pure fw (bind m k).
Proof.
  intros Hm Hk w. unfold bind.
  specialize (Hm w). destruct (m w) as [[a | e] w1]; simpl in Hm; subst.
  - apply Hk.
  - reflexivity.
Qed.

Lemma pure_getattr (o : pyobj) (name : string) : pure fw (getattr o name).
Proof. unfold getattr. destruct (obj_getattr o name); [apply pure_ret | apply pure_raise]. Qed.

Lemma pure_assertEqual (a : pyobj) (b : value) : pure fw (assertEqual a b).
Proof. unfold assertEqual. destruct (obj_eq a b); [apply pure_ret | apply pure_raise]. Qed.

Lemma pure_assertIn (x c : value) : pure fw (assertIn x c).
Proof.
  unfold assertIn. destruct (py_in x c) as [[|]|];
    [apply pure_ret | apply pure_raise | apply pure_raise].
Qed.

Lemma pure_for_each {A : Type} (body : A -> M fw unit) (l : list A) :
  (forall x, pure fw (body x)) -> pure fw (for_each body l).
Proof.
  intro Hb. induction l as [| x rest IH]; simpl.
  - apply pure_ret.
  - apply pure_bind; [apply Hb | intros _; exact IH].
Qed.

Create HintDb pure.

#[local] Hint Resolve pure_ret pure_raise pure_lift pure_getattr
  pure_assertEqual pure_assertIn : pure.

Ltac pure_steps :=
  repeat first
    [ apply pure_bind; [| intro]
    | apply pure_for_each; intro
    | solve [auto with pure] ].

Lemma pure_check_attribute self data a : pure fw (check_attribute fw self data a).
Proof. destruct a; simpl; pure_steps. Qed.

Lemma pure_check_attributes self data : pure fw (_check_attributes fw self data).
Proof. apply pure_for_each. intro. apply pure_check_attribute. Qed.

Lemma pure_related_pks items : pure fw (related_pks fw items).
Proof.
  induction items as [| item rest IH]; simpl.
  - apply pure_ret.
  - pure_steps.
Qed.

Lemma pure_related_key related : pure fw (related_key fw related).
Proof. unfold related_key. destruct (obj_hasattr related "uuid"); pure_steps. Qed.

Lemma pure_check_items obj items results : pure fw (check_items fw obj items results).
Proof.
  induction items as [| [key value] rest IH]; simpl.
  - apply pure_ret.
  - destruct (obj_hasattr obj (key ++ "_id")%string).
    + pure_steps. apply pure_related_key.
    + apply pure_bind; [apply pure_getattr |].
      intros [v | text attrs | text related]; pure_steps.
      apply pure_related_pks.
Qed.

Lemma pure_update_check_db obj data results : pure fw (_update_check_db fw obj data results).
Proof.
  unfold _update_check_db. destruct data; try apply pure_raise.
  apply pure_check_items.
Qed.

Lemma pure_run {A : Type} (m : M fw A) (w w' : World fw) (out : result A) :
  pure fw m -> m w = (out, w') -> w' = w.
Proof. intros P H. specialize (P w). rewrite H in P. exact P. Qed.

Ltac frame :=
  repeat match goal with
  | H : _check_attributes _ ?s ?d ?w = (_, ?w') |- _ =>
      apply (pure_run _ _ _ _ (pure_check_attributes s d)) in H; subst w'
  | H : _update_check_db _ ?o ?d ?r ?w = (_, ?w') |- _ =>
      apply (pure_run _ _ _ _ (pure_update_check_db o d r)) in H; subst w'
  end.

Ltac returns :=
  repeat split; try (eexists; reflexivity);
  try (apply Z.eqb_eq; assumption).

Ltac rejects S :=
  try no_answer; try the_answer; try reflexivity;
  try (exfalso; apply S; apply Z.eqb_eq; assumption).

Lemma test_detail_returns self kwargs w r w' :
  test_detail fw self kwargs w = (Ok r, w') ->
  answered w w' r /\ Response.status_code r = HTTP_200_OK.
Proof.
  unfold test_detail, answered. intro H. run. all: frame; returns.
Qed.

Lemma test_detail_rejects self kwargs w out w' r :
  test_detail fw self kwargs w = (out, w') ->
  answered w w' r -> Response.status_code r <> HTTP_200_OK ->
  out = Err AssertionError.
Proof.
  unfold test_detail. intros H A S. run. all: frame; rejects S.
Qed.

Lemma test_create_returns self data kwargs w r created w' :
  test_create fw self data kwargs w = (Ok (r, created), w') ->
  answered w w' r /\ Response.status_code r = HTTP_201_CREATED.
Proof.
  unfold test_create, answered. intro H. run. all: returns.
Qed.

Lemma test_create_rejects self data kwargs w out w' r :
  test_create fw self data kwargs w = (out, w') ->
  answered w w' r -> Response.status_code r <> HTTP_201_CREATED ->
  out = Err AssertionError.
Proof.
  unfold test_create. intros H A S. run. all: rejects S.
Qed.

Lemma test_update_returns self data results use_patch kwargs w r updated w' :
  test_update fw self data results use_patch kwargs w = (Ok (r, updated), w') ->
  answered w w' r /\ Response.status_code r = HTTP_200_OK.
Proof.
  unfold test_update, answered. intro H. run. all: frame; returns.
Qed.

Lemma test_update_rejects self data results use_patch kwargs w out w' r :
  test_update fw self data results use_patch kwargs w = (out, w') ->
  answered w w' r -> Response.status_code r <> HTTP_200_OK ->
  out = Err AssertionError.
Proof.
  unfold test_update. intros H A S. run. all: frame; rejects S.
Qed.

Lemma test_destroy_returns self kwargs w r w' :
  test_destroy fw self kwargs w = (Ok r, w') ->
  answered w w' r /\ Response.status_code r = HTTP_204_NO_CONTENT.
Proof.
  unfold test_destroy, answered. intro H. run. all: returns.
Qed.

Lemma test_destroy_rejects self kwargs w out w' r :
  test_destroy fw self kwargs w = (out, w') ->
  answered w w' r -> Response.status_code r <> HTTP_204_NO_CONTENT ->
  out = Err AssertionError.
Proof.
  unfold test_destroy. intros H A S. run. all: rejects S.
Qed.

(** ** Status codes and the response envelope *)

(** C1, amended. Each test method asserts the success status code of
    its verb.  A run that returns normally was answered with that code:
    200 for [test_list], 200 for [test_detail] and [test_update], 201
    for [test_create], 204 for [test_destroy].  For [test_list] the
    response data moreover satisfies ['results' in response.data]: it
    is a dict with the key ['results'], or a list with an element equal
    to ['results'], or a string that contains it.  A run that was
    answered with any other code ends in an assertion error. *)
Theorem status_codes_asserted
    (self : TestCase) (kwargs : list (string * value))
    (data results use_patch : value) (w : World fw) :
  (forall r w',
      test_list fw self kwargs w = (Ok r, w') ->
      answered w w' r /\ Response.status_code r = 200 /\
      py_in (VStr "results") (Response.data r) = Ok true /\
      (forall d, Response.data r = VDict d -> has_key "results" d = true) /\
      (forall l, Response.data r = VList l ->
                 existsb (py_eq (VStr "results")) l = true) /\
      (forall t, Response.data r = VStr t -> is_substring "results" t = true) /\
      ((exists d, Response.data r = VDict d) \/
       (exists l, Response.data r = VList l) \/
       (exists t, Response.data r = VStr t))) /\
  (forall r w',
      test_detail fw self kwargs w = (Ok r, w') ->
      answered w w' r /\ Response.status_code r = 200) /\
  (forall r updated w',
      test_update fw self data results use_patch kwargs w = (Ok (r, updated), w') ->
      answered w w' r /\ Response.status_code r = 200) /\
  (forall r created w',
      test_create fw self data kwargs w = (Ok (r, created), w') ->
      answered w w' r /\ Response.status_code r = 201) /\
  (forall r w',
      test_destroy fw self kwargs w = (Ok r, w') ->
      answered w w' r /\ Response.status_code r = 204) /\
  (forall out w' r,
      test_list fw self kwargs w = (out, w') ->
      answered w w' r -> Response.status_code r <> 200 ->
      out = Err AssertionError) /\
  (forall out w' r,
      test_detail fw self kwargs w = (out, w') ->
      answered w w' r -> Response.status_code r <> 200 ->
      out = Err AssertionError) /\
  (forall out w' r,
      test_update fw self data results use_patch kwargs w = (out, w') ->
      answered w w' r -> Response.status_code r <> 200 ->
      out = Err AssertionError) /\
  (forall out w' r,
      test_create fw self data kwargs w = (out, w') ->
      answered w w' r -> Response.status_code r <> 201 ->
      out = Err AssertionError) /\
  (forall out w' r,
      test_destroy fw self kwargs w = (out, w') ->
      answered w w' r -> Response.status_code r <> 204 ->
      out = Err AssertionError).
Proof.
  repeat match goal with |- _ /\ _ => split end.
  - intros r w' H. destruct (test_list_returns _ _ _ _ _ H) as (A & S & I).
    split; [exact A |]. split; [exact S |]. split; [exact I |].
    unfold py_in in I.
    split; [| split; [| split]].
    + intros d E. rewrite E in I. congruence.
    + intros l E. rewrite E in I. congruence.
    + intros t E. rewrite E in I. congruence.
    + destruct (Response.data r) as [| b | z | t | l | d]; try discriminate I.
      * right. right. exists t. reflexivity.
      * right. left. exists l. reflexivity.
      * left. exists d. reflexivity.
  - intros r w' H. exact (test_detail_returns _ _ _ _ _ H).
  - intros r updated w' H. exact (test_update_returns _ _ _ _ _ _ _ _ _ H).
  - intros r created w' H. exact (test_create_returns _ _ _ _ _ _ _ H).
  - intros r w' H. exact (test_destroy_returns _ _ _ _ _ H).
  - intros out w' r. apply test_list_rejects.
  - intros out w' r. apply test_detail_rejects.
  - intros out w' r. apply test_update_rejects.
  - intros out w' r. apply test_create_rejects.
  - intros out w' r. apply test_destroy_rejects.
Qed.

(** ** Diagnostic printing *)

Ltac printed S :=
  try no_answer; try the_answer; simpl;
  try (exfalso; apply S; apply Z.eqb_eq; assumption);
  try (split; reflexivity).

Lemma test_list_prints self kwargs w out w' r :
  test_list fw self kwargs w = (out, w') ->
  answered w w' r -> Response.status_code r <> HTTP_200_OK ->
  stdout w' = stdout w ++ [Response.data r] /\ out = Err AssertionError.
Proof.
  unfold test_list. intros H A S. run. all: printed S.
Qed.

Lemma test_detail_prints self kwargs w out w' r :
  test_detail fw self kwargs w = (out, w') ->
  answered w w' r -> Response.status_code r <> HTTP_200_OK ->
  stdout w' = stdout w ++ [Response.data r] /\ out = Err AssertionError.
Proof.
  unfold test_detail. intros H A S. run. all: frame; printed S.
Qed.

Lemma test_create_prints self data kwargs w out w' r :
  test_create fw self data kwargs w = (out, w') ->
  answered w w' r -> Response.status_code r <> HTTP_201_CREATED ->
  stdout w' = stdout w ++ [Response.data r] /\ out = Err AssertionError.
Proof.
  unfold test_create. intros H A S. run. all: printed S.
Qed.

Lemma test_update_prints self data results use_patch kwargs w out w' r :
  test_update fw self data results use_patch kwargs w = (out, w') ->
  answered w w' r -> Response.status_code r <> HTTP_200_OK ->
  stdout w' =
    stdout w ++ (if Response.status_code r =? HTTP_400_BAD_REQUEST
                 then [Response.data r] else []) /\
  out = Err AssertionError.
Proof.
  unfold test_update. intros H A S. run.
  all: frame; try no_answer; try the_answer; simpl;
    try (exfalso; apply S; apply Z.eqb_eq; assumption).
  all: match goal with
       | E : (_ =? HTTP_400_BAD_REQUEST) = _ |- _ => rewrite E
       end; simpl; rewrite ?app_nil_r; split; reflexivity.
Qed.

(** [test_destroy] has no [print] statement. *)
Lemma test_destroy_prints_nothing self kwargs w out w' :
  test_destroy fw self kwargs w = (out, w') -> stdout w' = stdout w.
Proof.
  unfold test_destroy. intro H. run. all: reflexivity.
Qed.

(** C2, amended. [test_list], [test_detail] and [test_create] print the
    response data whenever the status code is not the expected one, and
    then fail the assertion.  [test_update] prints the response data
    only when the status code is 400; with any other code that is not
    200 it fails the assertion and prints nothing. *)
Theorem unexpected_status_printed
    (self : TestCase) (kwargs : list (string * value))
    (data results use_patch : value) (w w' : World fw) (r : response)
    (A : answered w w' r) :
  (forall out,
      test_list fw self kwargs w = (out, w') ->
      Response.status_code r <> 200 ->
      stdout w' = stdout w ++ [Response.data r] /\ out = Err AssertionError) /\
  (forall out,
      test_detail fw self kwargs w = (out, w') ->
      Response.status_code r <> 200 ->
      stdout w' = stdout w ++ [Response.data r] /\ out = Err AssertionError) /\
  (forall out,
      test_create fw self data kwargs w = (out, w') ->
      Response.status_code r <> 201 ->
      stdout w' = stdout w ++ [Response.data r] /\ out = Err AssertionError) /\
  (forall out,
      test_update fw self data results use_patch kwargs w = (out, w') ->
      Response.status_code r <> 200 ->
      stdout w' =
        stdout w ++ (if Response.status_code r =? 400
                     then [Response.data r] else []) /\
      out = Err AssertionError).
Proof.
  repeat match goal with |- _ /\ _ => split end; intros out H S.
  - exact (test_list_prints _ _ _ _ _ _ H A S).
  - exact (test_detail_prints _ _ _ _ _ _ H A S).
  - exact (test_create_prints _ _ _ _ _ _ _ H A S).
  - exact (test_update_prints _ _ _ _ _ _ _ _ _ H A S).
Qed.

(** ** The database check of [test_update] *)

Lemma related_key_run related w :
  related_key fw related w =
  (match related_text fw related with
   | Some text => Ok (PVal (VStr text))
   | None => Err AttributeError
   end, w).
Proof.
  unfold related_key, related_text, obj_hasattr.
  destruct (obj_getattr related "uuid") eqn:U.
  - unfold_m. rewrite U. reflexivity.
  - unfold_m. destruct (obj_getattr related "pk"); reflexivity.
Qed.

Lemma related_pks_run items w :
  related_pks fw items w =
  (match pk_texts fw items with
   | Some pks => Ok pks
   | None => Err AttributeError
   end, w).
Proof.
  induction items as [| item rest IH]; simpl.
  - reflexivity.
  - unfold bind, getattr. destruct (obj_getattr item "pk"); simpl.
    + unfold ret at 1. rewrite IH.
      destruct (pk_texts fw rest); reflexivity.
    + reflexivity.
Qed.

Lemma posted_loop_run related posted w out w' :
  for_each (fun pk => bind (related_pks fw related)
                        (fun pks => assertIn pk (VList pks))) posted w
    = (out, w') ->
  w' = w /\
  (out = Ok tt <->
   (posted = [] \/
    exists pks, pk_texts fw related = Some pks /\
                forall pk, In pk posted -> existsb (py_eq pk) pks = true)).
Proof.
  revert out w'. induction posted as [| pk rest IH]; simpl; intros out w' H.
  - unfold ret in H. inversion H; subst. split; [reflexivity |].
    split; [intros _; left; reflexivity | reflexivity].
  - unfold bind at 1 2 in H. rewrite related_pks_run in H.
    destruct (pk_texts fw related) as [pks |] eqn:P.
    + unfold assertIn in H. simpl in H.
      destruct (existsb (py_eq pk) pks) eqn:E.
      * unfold ret at 1 in H. apply IH in H. destruct H as [-> H].
        split; [reflexivity |]. rewrite H. split.
        -- intros [-> | (pks' & P' & all)]; right; exists pks;
             (split; [reflexivity |]); intros x [<- | I]; trivial.
           ++ contradiction.
           ++ assert (pks' = pks) by congruence. subst. auto.
        -- intros [? | (pks' & P' & all)]; [discriminate |].
           assert (pks' = pks) by congruence. subst.
           right. exists pks. split; [assumption | auto].
      * unfold raise in H. inversion H; subst. split; [reflexivity |].
        split; [discriminate |].
        intros [? | (pks' & P' & all)]; [discriminate |].
        assert (pks' = pks) by congruence. subst.
        rewrite (all pk (or_introl eq_refl)) in E. discriminate.
    + inversion H; subst. split; [reflexivity |].
      split; [discriminate |].
      intros [? | (pks' & P' & _)]; discriminate.
Qed.

Ltac fails H := solve [discriminate | unfold raise in H; simpl in H; discriminate].

Lemma check_items_sound obj results items :
  forall w rv w',
    check_items fw obj items results w = (Ok rv, w') ->
    Checked fw obj results items rv.
Proof.
  induction items as [| [key value] rest IH]; simpl; intros w rv w' H.
  - unfold ret in H. inversion H. constructor.
  - destruct (obj_hasattr obj (key ++ "_id")%string) eqn:FK.
    + unfold bind at 1, getattr at 1 in H.
      destruct (obj_getattr obj key) as [related |] eqn:G; [| fails H].
      unfold ret at 1, bind at 1 in H. rewrite related_key_run in H.
      destruct (related_text fw related) as [text |] eqn:T; [| fails H].
      unfold bind at 1, lift at 1 in H.
      destruct (py_get results key value) as [expected |] eqn:P; [| fails H].
      unfold bind at 1, assertEqual at 1, obj_eq in H.
      destruct (py_eq (VStr text) expected) eqn:E; [| fails H].
      unfold ret at 1 in H.
      eapply Checked_foreign_key; eauto.
    + unfold bind at 1, getattr at 1 in H.
      destruct (obj_getattr obj key) as [attribute |] eqn:G; [| fails H].
      unfold ret at 1 in H.
      destruct attribute as [v | text attrs | text related].
      * unfold bind at 1, lift at 1 in H.
        destruct (py_get results key value) as [expected |] eqn:P; [| fails H].
        unfold bind at 1, assertEqual at 1 in H.
        destruct (obj_eq (PVal v) expected) eqn:E; [| fails H].
        unfold ret at 1 in H.
        eapply Checked_plain; eauto.
      * unfold bind at 1, lift at 1 in H.
        destruct (py_get results key value) as [expected |] eqn:P; [| fails H].
        unfold bind at 1, assertEqual at 1 in H.
        fails H.
      * unfold bind at 1, lift at 1 in H.
        destruct (py_iter value) as [posted |] eqn:I; [| fails H].
        unfold bind at 1 in H.
        match type of H with
        | context [for_each ?body posted w] =>
            destruct (for_each body posted w) as [[[] | e] w1] eqn:L;
              [| fails H]
        end.
        apply posted_loop_run in L. destruct L as [-> L].
        unfold ret in H. inversion H; subst.
        eapply Checked_many_to_many; eauto.
        apply L. reflexivity.
Qed.

Lemma check_items_complete obj results items rv :
  Checked fw obj results items rv ->
  forall w, check_items fw obj items results w = (Ok rv, w).
Proof.
  induction 1 as
    [ | key value rest rv related text expected FK G T P E _ IH
      | key value rest rv attribute expected FK G NM P E _ IH
      | key value rest text related posted FK G I all ]; intro w; simpl.
  - reflexivity.
  - rewrite FK. unfold bind at 1, getattr at 1. rewrite G.
    unfold ret at 1, bind at 1. rewrite related_key_run, T.
    unfold bind at 1, lift at 1. rewrite P.
    unfold bind at 1, assertEqual at 1, obj_eq. rewrite E.
    unfold ret at 1. apply IH.
  - rewrite FK. unfold bind at 1, getattr at 1. rewrite G.
    unfold ret at 1.
    destruct attribute as [v | text attrs | text related]; try discriminate.
    unfold bind at 1, lift at 1. rewrite P.
    unfold bind at 1, assertEqual at 1. rewrite E.
    unfold ret at 1. apply IH.
  - rewrite FK. unfold bind at 1, getattr at 1. rewrite G.
    unfold ret at 1, bind at 1, lift at 1. rewrite I.
    unfold bind at 1.
    match goal with
    | |- context [for_each ?body posted w] =>
        destruct (for_each body posted w) as [out w1] eqn:L
    end.
    apply posted_loop_run in L. destruct L as [-> L].
    apply L in all. subst out. reflexivity.
Qed.

(** [_update_check_db] returns normally exactly when the request data is
    a dict whose items are [Checked] against the expected results, a
    missing [results] standing for the empty dict. *)
Lemma update_check_db_spec obj data results w ret :
  _update_check_db fw obj data results w = (Ok ret, w) <->
  exists items,
    data = VDict items /\
    Checked fw obj (if is_none results then VDict [] else results) items ret.
Proof.
  unfold _update_check_db. split.
  - intro H. destruct data; try discriminate.
    eexists. split; [reflexivity |]. eapply check_items_sound. exact H.
  - intros (items & -> & C). apply check_items_complete. exact C.
Qed.

Lemma object_id_of_inv self field object_id :
  object_id_of self = Ok (field, object_id) ->
  attr self "lookup_field" = Ok (VStr field) /\
  obj_getattr (object self) field = Some object_id.
Proof.
  unfold object_id_of. intro H.
  destruct (attr self "lookup_field") as [[| | | s | |] |]; try discriminate.
  destruct (obj_getattr (object self) s) eqn:G; try discriminate.
  inversion H; subst. split; [reflexivity | exact G].
Qed.

Ltac settle_world :=
  try match goal with
      | Hc : _update_check_db _ ?o ?d ?r ?W = (_, ?w') |- _ =>
          pose proof (pure_run _ _ _ _ (pure_update_check_db o d r) Hc);
          subst w'
      end.

Ltac wrong_status S :=
  exfalso;
  match goal with
  | E : (Response.status_code _ =? _) = false |- _ =>
      apply Z.eqb_neq in E; apply E; exact S
  end.

(** C3, amended. After a 200 response [test_update] fetches the object
    from the database by [lookup_field] and returns it with the response
    exactly when the checks over the request data pass: key by key, the
    stored attribute equals [results[key]], or the request value when
    [results] has no such key; for a foreign key the unicode string of
    the related object's [uuid], or of its [pk] when it has no [uuid],
    is what is compared; at the first many-to-many key every posted pk
    must be among the unicode strings of the related objects' pks, and
    the keys after it are not checked. *)
Theorem update_checks_database
    (self : TestCase) (data results use_patch : value)
    (kwargs : list (string * value)) (w w' : World fw)
    (out : result (response * pyobj)) (r : response) :
  test_update fw self data results use_patch kwargs w = (out, w') ->
  answered w w' r ->
  Response.status_code r = 200 ->
  exists field object_id sent,
    attr self "lookup_field" = Ok (VStr field) /\
    obj_getattr (object self) field = Some object_id /\
    (if is_none data then get_update_data self else Ok data) = Ok sent /\
    forall updated,
      out = Ok (r, updated) <->
      objects_get fw (db w') field object_id = Ok updated /\
      exists items rv,
        sent = VDict items /\
        Checked fw updated
          (let expected :=
             if is_none results then get_update_results self sent else results in
           if is_none expected then VDict [] else expected)
          items rv.
Proof.
  intros H A S. unfold test_update in H. run.
  all: settle_world; try no_answer; the_answer; try wrong_status S.
  all: match goal with
       | Hid : object_id_of _ = Ok ?a |- _ =>
           destruct a as [field object_id];
           apply object_id_of_inv in Hid; destruct Hid as [Hf Ho]
       end.
  all: exists field, object_id; eexists;
    (split; [exact Hf |]); (split; [exact Ho |]);
    (split; [first [eassumption | reflexivity] |]).
  all: simpl in *; intro updated; split.
  all: try (intro Eq; discriminate Eq).
  all: try (intro Eq; inversion Eq; subst; split; [assumption |];
            match goal with
            | Hc : _update_check_db _ _ _ _ _ = (Ok ?v, _) |- _ =>
                apply update_check_db_spec in Hc;
                destruct Hc as (items & E & C);
                exists items, v; split; assumption
            end).
  all: intros [G (items & rv & E & C)]; subst.
  all: try congruence.
  all: match goal with
       | Hg : objects_get _ _ _ _ = Ok ?x, G : objects_get _ _ _ _ = Ok ?y |- _ =>
           assert (x = y) by congruence; subst
       end.
  all: match goal with
       | Hc : _update_check_db _ _ _ _ ?W = _ |- _ =>
           pose proof (proj2 (update_check_db_spec _ _ _ W rv)
                         (ex_intro _ items (conj eq_refl C))) as Hok;
           rewrite Hok in Hc; discriminate Hc
       end.
Qed.

(** ** The database checks of [test_create] and [test_destroy] *)

(** C4. After a 201 response [test_create] fetches the instance of the
    object's model class whose [id] is the ['id'] of the response data,
    and returns the response with that instance; when the fetch raises
    (no such row: [ObjectDoesNotExist]) the test ends in that
    exception. *)
Theorem create_checks_database
    (self : TestCase) (data : value) (kwargs : list (string * value))
    (w w' : World fw) (out : result (response * pyobj)) (r : response)
    (id : value) :
  test_create fw self data kwargs w = (out, w') ->
  answered w w' r ->
  Response.status_code r = 201 ->
  py_get (Response.data r) "id" VNone = Ok id ->
  (forall created,
      objects_get fw (db w') "id" (PVal id) = Ok created ->
      out = Ok (r, created)) /\
  (objects_get fw (db w') "id" (PVal id) = Err ObjectDoesNotExist ->
   out = Err ObjectDoesNotExist) /\
  (forall created,
      out = Ok (r, created) ->
      objects_get fw (db w') "id" (PVal id) = Ok created).
Proof.
  intros H A S I. unfold test_create in H. run.
  all: try no_answer; the_answer; try wrong_status S.
  all: simpl in *.
  all: repeat split; intros; congruence.
Qed.

(** C5. After a 204 response [test_destroy] fetches the object's model
    class again by [lookup_field] and the deleted object's value of it:
    the test returns the response when the fetch raises
    [ObjectDoesNotExist], and fails the assertion when the fetch
    succeeds. *)
Theorem destroy_checks_database
    (self : TestCase) (kwargs : list (string * value))
    (w w' : World fw) (out : result response) (r : response) :
  test_destroy fw self kwargs w = (out, w') ->
  answered w w' r ->
  Response.status_code r = 204 ->
  exists field object_id,
    attr self "lookup_field" = Ok (VStr field) /\
    obj_getattr (object self) field = Some object_id /\
    (objects_get fw (db w') field object_id = Err ObjectDoesNotExist ->
     out = Ok r) /\
    (forall found,
        objects_get fw (db w') field object_id = Ok found ->
        out = Err AssertionError) /\
    (out = Ok r ->
     objects_get fw (db w') field object_id = Err ObjectDoesNotExist).
Proof.
  intros H A S. unfold test_destroy in H. run.
  all: try no_answer; the_answer; try wrong_status S.
  all: match goal with
       | Hid : object_id_of _ = Ok ?a |- _ =>
           destruct a as [field object_id];
           apply object_id_of_inv in Hid; destruct Hid as [Hf Ho]
       end.
  all: exists field, object_id;
    (split; [exact Hf |]); (split; [exact Ho |]); simpl in *.
  all: repeat split; intros; try congruence.
  all: match goal with
       | E : exn_eqb ?e ObjectDoesNotExist = true |- _ =>
           destruct e; try discriminate E; congruence
       | E : exn_eqb ?e ObjectDoesNotExist = false, G : _ = Err ObjectDoesNotExist |- _ =>
           rewrite G in *;
           match goal with
           | X : Err _ = Err _ |- _ => inversion X; subst; discriminate E
           end
       end.
Qed.

(** ** Attribute lookup *)

Lemma class_getattr_app before after name :
  (forall c, In c before -> assoc name (cattrs c) = None) ->
  class_getattr (before ++ after) name = class_getattr after name.
Proof.
  induction before as [| c rest IH]; simpl; intro H.
  - reflexivity.
  - rewrite (H c (or_introl eq_refl)). apply IH. intros c' I. apply H. right. exact I.
Qed.

Lemma inherited self c name v :
  inherits self c name ->
  assoc name (cattrs c) = Some v ->
  self_getattr self name = Some v.
Proof.
  intros (I & before & after & E & B) A. unfold self_getattr.
  rewrite I, E, class_getattr_app by exact B. simpl. rewrite A. reflexivity.
Qed.

(** With [c] in the resolution order the attributes of [c] are found,
    whoever sets them. *)
Lemma attribute_exists self c name :
  In c (cls_mro self) ->
  has_key name (cattrs c) = true ->
  exists v, self_getattr self name = Some v.
Proof.
  unfold self_getattr, has_key. intros I K.
  destruct (assoc name (inst_dict self)) as [v |]; [exists v; reflexivity |].
  induction (cls_mro self) as [| c' rest IH]; [contradiction |]. simpl.
  destruct (assoc name (cattrs c')) as [v |] eqn:A; [exists v; reflexivity |].
  destruct I as [-> | I]; [rewrite A in K; discriminate | exact (IH I)].
Qed.

(** ** Route names *)

Ltac sent E :=
  simpl in E;
  first [ exfalso; exact (app_one_neq _ _ E)
        | apply app_one_inj in E; inversion E; subst; clear E ].

Lemma test_list_route self kwargs w out w' req resp :
  test_list fw self kwargs w = (out, w') ->
  exchanges w' = exchanges w ++ [(req, resp)] ->
  exists name,
    list_view_name self = Ok name /\ reverse fw name [] = Ok (rurl req).
Proof.
  unfold test_list. intros H E. run.
  all: sent E; eexists; (split; [reflexivity | assumption]).
Qed.

Lemma test_detail_route self kwargs w out w' req resp :
  test_detail fw self kwargs w = (out, w') ->
  exchanges w' = exchanges w ++ [(req, resp)] ->
  exists name id,
    detail_view_name self = Ok name /\ object_id_of self = Ok id /\
    reverse fw name [PVal (VStr (unicode fw (snd id)))] = Ok (rurl req).
Proof.
  unfold test_detail. intros H E. run.
  all: frame; sent E; do 2 eexists; repeat split; try reflexivity; assumption.
Qed.

Lemma test_create_route self data kwargs w out w' req resp :
  test_create fw self data kwargs w = (out, w') ->
  exchanges w' = exchanges w ++ [(req, resp)] ->
  exists name,
    _get_create_name self = Ok name /\ reverse fw name [] = Ok (rurl req).
Proof.
  unfold test_create. intros H E. run.
  all: sent E; eexists; (split; [reflexivity | assumption]).
Qed.

Lemma test_update_route self data results use_patch kwargs w out w' req resp :
  test_update fw self data results use_patch kwargs w = (out, w') ->
  exchanges w' = exchanges w ++ [(req, resp)] ->
  exists name id,
    _get_update_name self = Ok name /\ object_id_of self = Ok id /\
    reverse fw name [snd id] = Ok (rurl req).
Proof.
  unfold test_update. intros H E. run.
  all: frame; sent E; do 2 eexists; repeat split; try reflexivity; assumption.
Qed.

Lemma test_destroy_route self kwargs w out w' req resp :
  test_destroy fw self kwargs w = (out, w') ->
  exchanges w' = exchanges w ++ [(req, resp)] ->
  exists name id,
    _get_destroy_name self = Ok name /\ object_id_of self = Ok id /\
    reverse fw name [snd id] = Ok (rurl req).
Proof.
  unfold test_destroy. intros H E. run.
  all: sent E; do 2 eexists; repeat split; try reflexivity; assumption.
Qed.

Lemma override_or_default self name (fallback : result value) v :
  fallback = Ok v ->
  (if hasattr self name then attr self name else fallback) =
  Ok (getattr_default self name v).
Proof.
  intros ->. unfold hasattr, attr, getattr_default.
  destruct (self_getattr self name); reflexivity.
Qed.

(** C6, amended. Route names are string concatenations with per-verb
    overrides: the list endpoint name is [base_name + LIST_SUFFIX] and
    the detail endpoint name is [base_name + DETAIL_SUFFIX], the two
    suffixes being class attributes that a test class may set and that
    are ['-list'] and ['-detail'] when it inherits them.  [test_create]
    reverses [create_name] when the instance has one, else the list
    name; [test_update] reverses [update_name] when present, else the
    detail name; [test_destroy] reverses [destroy_name] when present,
    else the detail name. *)
Theorem route_names
    (self : TestCase) (base : string)
    (B : attr self "base_name" = Ok (VStr base)) :
  (forall suffix,
      attr self "LIST_SUFFIX" = Ok (VStr suffix) ->
      list_view_name self = Ok (VStr (base ++ suffix)) /\
      _get_create_name self =
        Ok (getattr_default self "create_name" (VStr (base ++ suffix)))) /\
  (forall suffix,
      attr self "DETAIL_SUFFIX" = Ok (VStr suffix) ->
      detail_view_name self = Ok (VStr (base ++ suffix)) /\
      _get_update_name self =
        Ok (getattr_default self "update_name" (VStr (base ++ suffix))) /\
      _get_destroy_name self =
        Ok (getattr_default self "destroy_name" (VStr (base ++ suffix)))) /\
  (inherits self BaseRESTAPITestCase "LIST_SUFFIX" ->
   attr self "LIST_SUFFIX" = Ok (VStr "-list")) /\
  (inherits self BaseRESTAPITestCase "DETAIL_SUFFIX" ->
   attr self "DETAIL_SUFFIX" = Ok (VStr "-detail")) /\
  (forall data kwargs w out w' req resp,
      test_create fw self data kwargs w = (out, w') ->
      exchanges w' = exchanges w ++ [(req, resp)] ->
      exists name,
        _get_create_name self = Ok name /\
        reverse fw name [] = Ok (rurl req)) /\
  (forall data results use_patch kwargs w out w' req resp,
      test_update fw self data results use_patch kwargs w = (out, w') ->
      exchanges w' = exchanges w ++ [(req, resp)] ->
      exists name id,
        _get_update_name self = Ok name /\ object_id_of self = Ok id /\
        reverse fw name [snd id] = Ok (rurl req)) /\
  (forall kwargs w out w' req resp,
      test_destroy fw self kwargs w = (out, w') ->
      exchanges w' = exchanges w ++ [(req, resp)] ->
      exists name id,
        _get_destroy_name self = Ok name /\ object_id_of self = Ok id /\
        reverse fw name [snd id] = Ok (rurl req)).
Proof.
  assert (L : forall suffix,
             attr self "LIST_SUFFIX" = Ok (VStr suffix) ->
             list_view_name self = Ok (VStr (base ++ suffix))).
  { intros suffix S. unfold list_view_name. rewrite B, S. reflexivity. }
  assert (D : forall suffix,
             attr self "DETAIL_SUFFIX" = Ok (VStr suffix) ->
             detail_view_name self = Ok (VStr (base ++ suffix))).
  { intros suffix S. unfold detail_view_name. rewrite B, S. reflexivity. }
  repeat match goal with |- _ /\ _ => split end.
  - intros suffix S. split; [exact (L suffix S) |].
    apply override_or_default. exact (L suffix S).
  - intros suffix S. split; [exact (D suffix S) |].
    split; apply override_or_default; exact (D suffix S).
  - intro I. unfold attr.
    rewrite (inherited self BaseRESTAPITestCase "LIST_SUFFIX" (VStr "-list") I eq_refl).
    reflexivity.
  - intro I. unfold attr.
    rewrite (inherited self BaseRESTAPITestCase "DETAIL_SUFFIX" (VStr "-detail") I eq_refl).
    reflexivity.
  - intros data kwargs w out w' req resp. apply test_create_route.
  - intros data results use_patch kwargs w out w' req resp. apply test_update_route.
  - intros kwargs w out w' req resp. apply test_destroy_route.
Qed.

(** ** Expected results of an update *)

(** C8. When nothing overrides [update_results] (the instance and the
    classes before [UpdateAPITestCaseMixin] in the resolution order do
    not set it), [get_update_results] returns [None] whatever its data
    argument: the mixin's class attribute is found, so the default of
    [getattr] is never used.  The request data becomes the expected
    value inside [_update_check_db]: a [None] results is checked as the
    empty dict, and [{}.get(key, value)] is [value]. *)
Theorem update_results_default
    (self : TestCase)
    (I : inherits self UpdateAPITestCaseMixin "update_results") :
  (forall data, get_update_results self data = VNone) /\
  (forall obj data w,
      _update_check_db fw obj data VNone w =
      _update_check_db fw obj data (VDict []) w) /\
  (forall key value, py_get (VDict []) key value = Ok value) /\
  (forall obj items rv w,
      _update_check_db fw obj (VDict items) VNone w = (Ok rv, w) <->
      Checked fw obj (VDict []) items rv).
Proof.
  repeat match goal with |- _ /\ _ => split end.
  - intro data. unfold get_update_results, getattr_default.
    rewrite (inherited self UpdateAPITestCaseMixin "update_results" VNone I eq_refl).
    reflexivity.
  - reflexivity.
  - reflexivity.
  - intros obj items rv w. rewrite update_check_db_spec. simpl. split.
    + intros (items' & E & C). inversion E; subst. exact C.
    + intro C. exists items. split; [reflexivity | exact C].
Qed.

(** ** The body of a create request *)

(** C10. [test_create] does not fail for want of data.  With the
    mixin's [create_data] attribute in reach and a route that reverses,
    it sends one POST request whatever [data] is: when [data] is [None]
    the value of the attribute [create_data] stands for it, which is
    what [get_create_data()] returns and is [None] when the class
    attribute is inherited; and a resolved value that is falsy ([None],
    an empty dict) is sent as the empty dict. *)
Theorem create_request_always_sent
    (self : TestCase) (data : value) (kwargs : list (string * value))
    (w : World fw) (name : value) (url : string)
    (C : In CreateAPITestCaseMixin (cls_mro self))
    (N : _get_create_name self = Ok name)
    (R : reverse fw name [] = Ok url) :
  exists attribute,
    self_getattr self "create_data" = Some attribute /\
    get_create_data self = Ok attribute /\
    (inherits self CreateAPITestCaseMixin "create_data" ->
     attribute = VNone) /\
    let resolved := if is_none data then attribute else data in
    let body := if truthy resolved then resolved else VDict [] in
    let req := mkRequest POST url body kwargs in
    (truthy resolved = false -> body = VDict []) /\
    (truthy resolved = true -> body = resolved) /\
    exchanges (snd (test_create fw self data kwargs w)) =
    exchanges w ++ [(req, fst (serve fw req (db w)))].
Proof.
  destruct (attribute_exists self CreateAPITestCaseMixin "create_data" C eq_refl)
    as [v V].
  assert (G : get_create_data self = Ok v).
  { unfold get_create_data, attr. rewrite V. reflexivity. }
  exists v. split; [exact V |]. split; [exact G |]. split; [| split; [| split]].
  - intro I.
    pose proof (inherited self CreateAPITestCaseMixin "create_data" VNone I eq_refl) as V'.
    congruence.
  - intros ->. reflexivity.
  - intros ->. reflexivity.
  - destruct (test_create fw self data kwargs w) as [out w'] eqn:H.
    unfold test_create in H. unfold_m.
    destruct (is_none data); rewrite ?G in H; simpl in H;
      rewrite N in H; simpl in H; rewrite R in H; simpl in H;
      run; reflexivity.
Qed.

(** ** Attribute checks of [test_detail] *)

(** An entry that is a name compares the unicode string of the object's
    attribute with the response data at that key. *)
Lemma name_entry_checked self data name a expected w :
  obj_getattr (object self) name = Some a ->
  getitem data (LStr name) = Ok expected ->
  check_attribute fw self data (EName name) w =
  (if py_eq (VStr (unicode fw a)) expected then Ok tt else Err AssertionError, w).
Proof.
  intros A E. unfold check_attribute. unfold_m. rewrite A, E. unfold obj_eq.
  destruct (py_eq (VStr (unicode fw a)) expected); reflexivity.
Qed.

(** An integer attribute matches its decimal text and not the integer. *)
Lemma integer_attribute_needs_text self name z w :
  obj_getattr (object self) name = Some (PVal (VInt z)) ->
  check_attribute fw self (VDict [(name, VInt z)]) (EName name) w =
    (Err AssertionError, w) /\
  check_attribute fw self (VDict [(name, VStr (decimal z))]) (EName name) w =
    (Ok tt, w).
Proof.
  intro A. split.
  - rewrite (name_entry_checked self _ name _ (VInt z) w A).
    + reflexivity.
    + simpl. rewrite String.eqb_refl. reflexivity.
  - rewrite (name_entry_checked self _ name _ (VStr (decimal z)) w A).
    + simpl. rewrite String.eqb_refl. reflexivity.
    + simpl. rewrite String.eqb_refl. reflexivity.
Qed.

(** An entry that is a tuple or a list of a key and a callable compares
    what the callable returns for the object, as it is, with the
    response data at the key. *)
Lemma pair_entry_checked self data kind key f more v expected w :
  kind <> KSet ->
  f (object self) = Ok v ->
  getitem data (LStr key) = Ok expected ->
  check_attribute fw self data (ESeq kind (LStr key :: LCall f :: more)) w =
  (if obj_eq v expected then Ok tt else Err AssertionError, w).
Proof.
  intros K F E. destruct kind; [| | contradiction]; simpl; unfold_m;
    simpl; rewrite F; simpl in E; rewrite E;
    destruct (obj_eq v expected); reflexivity.
Qed.

(** An entry that is a set cannot be indexed: the check raises. *)
Lemma set_entry_raises self data elems w :
  check_attribute fw self data (ESeq KSet elems) w = (Err TypeError, w).
Proof. reflexivity. Qed.

(** [test_update] calls [patch] or [put] with the url and the data
    only: its keyword arguments do not reach the client. *)
Remark test_update_drops_kwargs self data results use_patch kwargs w :
  test_update fw self data results use_patch kwargs w =
  test_update fw self data results use_patch [] w.
Proof. reflexivity. Qed.

(** * Further properties of the mixins *)

(** ** Requests, database and output *)

Ltac one_call :=
  first
    [ left; split; reflexivity
    | right;
      match goal with
      | Hs : serve _ ?rq _ = _ |- _ =>
          exists rq; simpl; rewrite Hs; split; reflexivity
      end ].

(** Each test method calls the client at most once, and does not write
    the database itself: after a run either no call was made and the
    database is as it was, or one call was made and the database is as
    the server left it. *)
Theorem client_called_at_most_once
    (self : TestCase) (kwargs : list (string * value))
    (data results use_patch : value) (w : World fw) :
  Forall
    (fun w' =>
       (exchanges w' = exchanges w /\ db w' = db w) \/
       (exists req,
           exchanges w' =
             exchanges w ++ [(req, fst (serve fw req (db w)))] /\
           db w' = snd (serve fw req (db w))))
    [ snd (test_list fw self kwargs w);
      snd (test_detail fw self kwargs w);
      snd (test_create fw self data kwargs w);
      snd (test_update fw self data results use_patch kwargs w);
      snd (test_destroy fw self kwargs w) ].
Proof.
  repeat apply Forall_cons; [| | | | | apply Forall_nil].
  - destruct (test_list fw self kwargs w) as [out w'] eqn:H.
    unfold test_list in H. run. all: one_call.
  - destruct (test_detail fw self kwargs w) as [out w'] eqn:H.
    unfold test_detail in H. run. all: frame; one_call.
  - destruct (test_create fw self data kwargs w) as [out w'] eqn:H.
    unfold test_create in H. run. all: one_call.
  - destruct (test_update fw self data results use_patch kwargs w)
      as [out w'] eqn:H.
    unfold test_update in H. run. all: frame; one_call.
  - destruct (test_destroy fw self kwargs w) as [out w'] eqn:H.
    unfold test_destroy in H. run. all: one_call.
Qed.

(** A test that returns normally has printed nothing, and
    [test_destroy] never prints. *)
Theorem passing_tests_print_nothing
    (self : TestCase) (kwargs : list (string * value))
    (data results use_patch : value) (w : World fw) :
  (forall r w',
      test_list fw self kwargs w = (Ok r, w') -> stdout w' = stdout w) /\
  (forall r w',
      test_detail fw self kwargs w = (Ok r, w') -> stdout w' = stdout w) /\
  (forall p w',
      test_create fw self data kwargs w = (Ok p, w') -> stdout w' = stdout w) /\
  (forall p w',
      test_update fw self data results use_patch kwargs w = (Ok p, w') ->
      stdout w' = stdout w) /\
  (forall out w',
      test_destroy fw self kwargs w = (out, w') -> stdout w' = stdout w).
Proof.
  repeat match goal with |- _ /\ _ => split end.
  - intros r w' H. unfold test_list in H. run. all: reflexivity.
  - intros r w' H. unfold test_detail in H. run. all: frame; reflexivity.
  - intros p w' H. unfold test_create in H. run. all: reflexivity.
  - intros p w' H. unfold test_update in H. run.
    all: frame; simpl; try reflexivity.
    all: exfalso;
      repeat match goal with
             | E : (_ =? _) = true |- _ => apply Z.eqb_eq in E
             end;
      unfold HTTP_400_BAD_REQUEST, HTTP_200_OK in *; congruence.
  - intros out w' H. unfold test_destroy in H. run. all: reflexivity.
Qed.

(** The call each test but [test_update] makes on the client: the
    method is that of the verb, and the keyword arguments of the test
    are handed on as they are. *)
Theorem requests_forward_kwargs
    (self : TestCase) (kwargs : list (string * value)) (data : value)
    (w : World fw) (req : request) (resp : result response) :
  (forall out w',
      test_list fw self kwargs w = (out, w') ->
      exchanges w' = exchanges w ++ [(req, resp)] ->
      rverb req = GET /\ rextra req = kwargs) /\
  (forall out w',
      test_detail fw self kwargs w = (out, w') ->
      exchanges w' = exchanges w ++ [(req, resp)] ->
      rverb req = GET /\ rextra req = kwargs) /\
  (forall out w',
      test_create fw self data kwargs w = (out, w') ->
      exchanges w' = exchanges w ++ [(req, resp)] ->
      rverb req = POST /\ rextra req = kwargs) /\
  (forall out w',
      test_destroy fw self kwargs w = (out, w') ->
      exchanges w' = exchanges w ++ [(req, resp)] ->
      rverb req = DELETE /\ rextra req = kwargs).
Proof.
  repeat match goal with |- _ /\ _ => split end; intros out w' H E.
  - unfold test_list in H. run. all: sent E; repeat split.
  - unfold test_detail in H. run. all: frame; sent E; repeat split.
  - unfold test_create in H. run. all: sent E; repeat split.
  - unfold test_destroy in H. run. all: sent E; repeat split.
Qed.

(** The request of [test_update]: PATCH when [use_patch] (the argument,
    or the attribute when the argument is [None]) is true and PUT
    otherwise; the body is the data as resolved, [None] included; and
    the keyword arguments of the test are not handed on.  With the
    mixin's own [use_patch] the verb is PATCH. *)
Theorem update_request
    (self : TestCase) (data results use_patch : value)
    (kwargs : list (string * value)) (w w' : World fw)
    (out : result (response * pyobj))
    (req : request) (resp : result response) :
  test_update fw self data results use_patch kwargs w = (out, w') ->
  exchanges w' = exchanges w ++ [(req, resp)] ->
  exists sent flag,
    (if is_none data then get_update_data self else Ok data) = Ok sent /\
    (if is_none use_patch then attr self "use_patch" else Ok use_patch)
      = Ok flag /\
    rverb req = (if truthy flag then PATCH else PUT) /\
    rbody req = sent /\
    rextra req = [] /\
    (is_none use_patch = true ->
     inherits self UpdateAPITestCaseMixin "use_patch" ->
     rverb req = PATCH).
Proof.
  intros H E. unfold test_update in H. run.
  all: frame; sent E.
  all: do 2 eexists; simpl.
  all: repeat match goal with
              | |- _ /\ _ => split
              end;
    try first [eassumption | reflexivity].
  all: try match goal with
           | T : truthy _ = _ |- _ => rewrite T; reflexivity
           end.
  all: try (intro; discriminate).
  all: intros _ I;
    pose proof (inherited self UpdateAPITestCaseMixin "use_patch"
                  (VBool true) I eq_refl) as U;
    unfold attr in *; rewrite U in *;
    repeat match goal with
           | X : Ok _ = Ok _ |- _ => inversion X; subst; clear X
           end;
    try reflexivity; discriminate.
Qed.

(** ** Failing before the request *)

(** A run that did not call the client did not return normally and
    changed nothing. *)
Theorem no_request_no_effect
    (self : TestCase) (kwargs : list (string * value))
    (data results use_patch : value) (w w' : World fw)
    (E : exchanges w' = exchanges w) :
  (forall out, test_list fw self kwargs w = (out, w') ->
               w' = w /\ exists e, out = Err e) /\
  (forall out, test_detail fw self kwargs w = (out, w') ->
               w' = w /\ exists e, out = Err e) /\
  (forall out, test_create fw self data kwargs w = (out, w') ->
               w' = w /\ exists e, out = Err e) /\
  (forall out, test_update fw self data results use_patch kwargs w = (out, w') ->
               w' = w /\ exists e, out = Err e) /\
  (forall out, test_destroy fw self kwargs w = (out, w') ->
               w' = w /\ exists e, out = Err e).
Proof.
  repeat match goal with |- _ /\ _ => split end; intros out H.
  - unfold test_list in H. run.
    all: try (simpl in E; symmetry in E; exfalso; exact (app_one_neq _ _ E)).
    all: split; [reflexivity | eexists; reflexivity].
  - unfold test_detail in H. run.
    all: frame;
      try (simpl in E; symmetry in E; exfalso; exact (app_one_neq _ _ E)).
    all: split; [reflexivity | eexists; reflexivity].
  - unfold test_create in H. run.
    all: try (simpl in E; symmetry in E; exfalso; exact (app_one_neq _ _ E)).
    all: split; [reflexivity | eexists; reflexivity].
  - unfold test_update in H. run.
    all: frame;
      try (simpl in E; symmetry in E; exfalso; exact (app_one_neq _ _ E)).
    all: split; [reflexivity | eexists; reflexivity].
  - unfold test_destroy in H. run.
    all: try (simpl in E; symmetry in E; exfalso; exact (app_one_neq _ _ E)).
    all: split; [reflexivity | eexists; reflexivity].
Qed.

Lemma add_to_none (v : value) : py_add VNone v = Err TypeError.
Proof. destruct v; reflexivity. Qed.

Lemma base_in_mro self name :
  inherits self BaseRESTAPITestCase name ->
  In BaseRESTAPITestCase (cls_mro self).
Proof.
  intros (_ & before & after & E & _). rewrite E.
  apply in_or_app. right. left. reflexivity.
Qed.

Lemma unnamed_views self :
  inherits self BaseRESTAPITestCase "base_name" ->
  list_view_name self = Err TypeError /\
  detail_view_name self = Err TypeError.
Proof.
  intro I.
  pose proof (inherited self BaseRESTAPITestCase "base_name" VNone I eq_refl) as B.
  pose proof (base_in_mro self "base_name" I) as In'.
  destruct (attribute_exists self BaseRESTAPITestCase "LIST_SUFFIX" In' eq_refl)
    as [ls L].
  destruct (attribute_exists self BaseRESTAPITestCase "DETAIL_SUFFIX" In' eq_refl)
    as [ds D].
  unfold list_view_name, detail_view_name, attr.
  rewrite B, L, D. split; apply add_to_none.
Qed.

(** [base_name] is required: a test class that leaves it at the base
    class's [None] and names no route of its own fails every test with a
    [TypeError], when the route name is built and before any request. *)
Theorem base_name_is_required
    (self : TestCase) (kwargs : list (string * value))
    (data results use_patch : value) (w : World fw)
    (I : inherits self BaseRESTAPITestCase "base_name") :
  test_list fw self kwargs w = (Err TypeError, w) /\
  (forall id, object_id_of self = Ok id ->
              test_detail fw self kwargs w = (Err TypeError, w)) /\
  (In CreateAPITestCaseMixin (cls_mro self) ->
   hasattr self "create_name" = false ->
   test_create fw self data kwargs w = (Err TypeError, w)) /\
  (forall id, object_id_of self = Ok id ->
              hasattr self "update_name" = false ->
              test_update fw self data results use_patch kwargs w =
                (Err TypeError, w)) /\
  (forall id, object_id_of self = Ok id ->
              hasattr self "destroy_name" = false ->
              test_destroy fw self kwargs w = (Err TypeError, w)).
Proof.
  destruct (unnamed_views self I) as [L D].
  repeat match goal with |- _ /\ _ => split end.
  - unfold test_list. unfold_m. rewrite L. reflexivity.
  - intros id O. unfold test_detail. unfold_m. rewrite O, D. reflexivity.
  - intros C N.
    destruct (attribute_exists self CreateAPITestCaseMixin "create_data" C eq_refl)
      as [v V].
    unfold test_create, get_create_data, _get_create_name, attr. unfold_m.
    rewrite N, L, V. destruct (is_none data); reflexivity.
  - intros id O N. unfold test_update, _get_update_name. unfold_m.
    rewrite O, N, D. reflexivity.
  - intros id O N. unfold test_destroy, _get_destroy_name. unfold_m.
    rewrite O, N, D. reflexivity.
Qed.

(** ** Update data *)

(** The data of an update has to be a dict: with anything else, the
    [None] that [update_data] is in the mixin included, [test_update]
    does not return normally, whatever the server answers. *)
Theorem update_data_is_required
    (self : TestCase) (data results use_patch : value)
    (kwargs : list (string * value)) (w : World fw) :
  (forall sent,
      (if is_none data then get_update_data self else Ok data) = Ok sent ->
      (forall items, sent <> VDict items) ->
      forall p, fst (test_update fw self data results use_patch kwargs w) <> Ok p) /\
  (is_none data = true ->
   inherits self UpdateAPITestCaseMixin "update_data" ->
   forall p, fst (test_update fw self data results use_patch kwargs w) <> Ok p).
Proof.
  assert (G : forall sent,
             (if is_none data then get_update_data self else Ok data) = Ok sent ->
             (forall items, sent <> VDict items) ->
             forall p,
               fst (test_update fw self data results use_patch kwargs w) <> Ok p).
  { intros sent R N p.
    destruct (test_update fw self data results use_patch kwargs w)
      as [out w'] eqn:H.
    simpl. intro Eo. subst out. unfold test_update in H. run.
    all: match goal with
         | Hc : _update_check_db _ _ ?d _ _ = (Ok _, _) |- _ =>
             unfold _update_check_db in Hc;
             destruct d; try discriminate Hc
         end.
    all: match goal with
         | N' : forall items, VDict ?l <> VDict items |- _ =>
             exact (N' l eq_refl)
         | X : ?g = Ok (VDict ?l), Y : ?g = Ok ?s,
           N' : forall items, ?s <> VDict items |- _ =>
             rewrite X in Y; inversion Y; subst; exact (N' l eq_refl)
         end. }
  split; [exact G |].
  intros D I. apply (G VNone).
  - rewrite D. unfold get_update_data, attr.
    rewrite (inherited self UpdateAPITestCaseMixin "update_data" VNone I eq_refl).
    reflexivity.
  - intros items. discriminate.
Qed.

(** ** After the status code *)

Lemma test_list_after_200 self kwargs w out w' r :
  test_list fw self kwargs w = (out, w') ->
  answered w w' r -> Response.status_code r = HTTP_200_OK ->
  out = match py_in (VStr "results") (Response.data r) with
        | Ok true => Ok r
        | Ok false => Err AssertionError
        | Err e => Err e
        end.
Proof.
  unfold test_list. intros H A S. run.
  all: try no_answer; the_answer; try wrong_status S.
  all: match goal with E : py_in _ _ = _ |- _ => rewrite E end; reflexivity.
Qed.

Lemma test_detail_after_200 self kwargs w out w' r :
  test_detail fw self kwargs w = (out, w') ->
  answered w w' r -> Response.status_code r = HTTP_200_OK ->
  out = match fst (_check_attributes fw self (Response.data r) w') with
        | Ok _ => Ok r
        | Err e => Err e
        end.
Proof.
  unfold test_detail. intros H A S. run.
  all: match goal with
       | Hc : _check_attributes _ ?s ?d ?W = (_, ?w2) |- _ =>
           pose proof (pure_run _ _ _ _ (pure_check_attributes s d) Hc);
           subst w2
       | _ => idtac
       end.
  all: try no_answer; the_answer; try wrong_status S.
  all: match goal with
       | Hc : _check_attributes _ _ _ _ = _ |- _ => rewrite Hc
       end; reflexivity.
Qed.

Lemma test_create_after_201 self data kwargs w out w' r :
  test_create fw self data kwargs w = (out, w') ->
  answered w w' r -> Response.status_code r = HTTP_201_CREATED ->
  out = match py_get (Response.data r) "id" VNone with
        | Err e => Err e
        | Ok id =>
            match objects_get fw (db w') "id" (PVal id) with
            | Ok created => Ok (r, created)
            | Err e => Err e
            end
        end.
Proof.
  unfold test_create. intros H A S. run.
  all: try no_answer; the_answer; try wrong_status S.
  all: simpl;
    repeat match goal with
           | E : py_get _ _ _ = _ |- _ => rewrite E; clear E
           | E : objects_get _ _ _ _ = _ |- _ => rewrite E; clear E
           end; reflexivity.
Qed.

Lemma test_destroy_after_204 self kwargs w out w' r id :
  test_destroy fw self kwargs w = (out, w') ->
  answered w w' r -> Response.status_code r = HTTP_204_NO_CONTENT ->
  object_id_of self = Ok id ->
  out = match objects_get fw (db w') (fst id) (snd id) with
        | Ok _ => Err AssertionError
        | Err e => if exn_eqb e ObjectDoesNotExist then Ok r else Err e
        end.
Proof.
  unfold test_destroy. intros H A S O. rewrite O in H. run.
  all: try no_answer; the_answer; try wrong_status S.
  all: simpl;
    repeat match goal with
           | E : objects_get _ _ _ _ = _ |- _ => rewrite E; clear E
           | E : exn_eqb _ _ = _ |- _ => rewrite E; clear E
           end; reflexivity.
Qed.

Lemma test_update_fetch_fails self data results use_patch kwargs w out w' r id e :
  test_update fw self data results use_patch kwargs w = (out, w') ->
  answered w w' r -> Response.status_code r = HTTP_200_OK ->
  object_id_of self = Ok id ->
  objects_get fw (db w') (fst id) (snd id) = Err e ->
  out = Err e.
Proof.
  unfold test_update. intros H A S O G. rewrite O in H. run.
  all: settle_world; try no_answer; the_answer; try wrong_status S.
  all: simpl in *; congruence.
Qed.

(** A list answered with 200 passes exactly when ['results' in
    response.data] holds: with a dict that has no such key, or with the
    list of an unpaginated view that has no such element, the assertion
    fails; with no data at all the membership test itself raises a
    [TypeError]. *)
Theorem list_envelope
    (self : TestCase) (kwargs : list (string * value)) (w w' : World fw)
    (out : result response) (r : response)
    (H : test_list fw self kwargs w = (out, w'))
    (A : answered w w' r)
    (S : Response.status_code r = 200) :
  (forall d, Response.data r = VDict d ->
             out = if has_key "results" d then Ok r else Err AssertionError) /\
  (forall l, Response.data r = VList l ->
             out = if existsb (py_eq (VStr "results")) l
                   then Ok r else Err AssertionError) /\
  (Response.data r = VNone -> out = Err TypeError).
Proof.
  pose proof (test_list_after_200 _ _ _ _ _ _ H A S) as O.
  repeat split.
  - intros d E. rewrite E in O. unfold py_in in O.
    destruct (has_key "results" d); exact O.
  - intros l E. rewrite E in O. unfold py_in in O.
    destruct (existsb (py_eq (VStr "results")) l); exact O.
  - intro E. rewrite E in O. exact O.
Qed.

(** A create answered with 201 needs a dict to read the id from: with
    any other response data, the [None] of an empty body included, the
    test ends in an [AttributeError]; with a dict that has no ['id'] the
    instance whose id is [None] is asked for. *)
Theorem create_reads_id_from_dict
    (self : TestCase) (data : value) (kwargs : list (string * value))
    (w w' : World fw) (out : result (response * pyobj)) (r : response)
    (H : test_create fw self data kwargs w = (out, w'))
    (A : answered w w' r)
    (S : Response.status_code r = 201) :
  ((forall d, Response.data r <> VDict d) -> out = Err AttributeError) /\
  (forall d, Response.data r = VDict d -> assoc "id" d = None ->
             out = match objects_get fw (db w') "id" (PVal VNone) with
                   | Ok created => Ok (r, created)
                   | Err e => Err e
                   end).
Proof.
  pose proof (test_create_after_201 _ _ _ _ _ _ _ H A S) as O.
  split.
  - intro N. destruct (Response.data r) as [| | | | |d]; try exact O.
    exfalso. exact (N d eq_refl).
  - intros d E I. rewrite E in O. unfold py_get in O. rewrite I in O. exact O.
Qed.

(** What the ORM raises when the tests fetch from the database comes
    out of the test as it is: any exception in [test_create] and
    [test_update], any but [ObjectDoesNotExist] in [test_destroy]. *)
Theorem orm_errors_propagate
    (self : TestCase) (kwargs : list (string * value))
    (data results use_patch : value) (w w' : World fw) (r : response)
    (A : answered w w' r) (e : exn) :
  (forall out id,
      test_create fw self data kwargs w = (out, w') ->
      Response.status_code r = 201 ->
      py_get (Response.data r) "id" VNone = Ok id ->
      objects_get fw (db w') "id" (PVal id) = Err e ->
      out = Err e) /\
  (forall out id,
      test_update fw self data results use_patch kwargs w = (out, w') ->
      Response.status_code r = 200 ->
      object_id_of self = Ok id ->
      objects_get fw (db w') (fst id) (snd id) = Err e ->
      out = Err e) /\
  (forall out id,
      test_destroy fw self kwargs w = (out, w') ->
      Response.status_code r = 204 ->
      object_id_of self = Ok id ->
      objects_get fw (db w') (fst id) (snd id) = Err e ->
      e <> ObjectDoesNotExist ->
      out = Err e).
Proof.
  repeat split.
  - intros out id H S P G.
    rewrite (test_create_after_201 _ _ _ _ _ _ _ H A S), P, G. reflexivity.
  - intros out id H S O G.
    exact (test_update_fetch_fails _ _ _ _ _ _ _ _ _ _ _ H A S O G).
  - intros out id H S O G N.
    rewrite (test_destroy_after_204 _ _ _ _ _ _ _ H A S O), G.
    destruct e; try reflexivity. contradiction.
Qed.

(** ** The attribute checks of a detail *)

Lemma for_each_passes {A : Type} (body : A -> M fw unit) (l : list A) (w : World fw) :
  (forall x, pure fw (body x)) ->
  fst (for_each body l w) = Ok tt <->
  Forall (fun x => fst (body x w) = Ok tt) l.
Proof.
  intro P. induction l as [| x rest IH]; simpl.
  - split; [intros _; constructor | reflexivity].
  - unfold bind. pose proof (P x w) as Px.
    destruct (body x w) as [[[] | e] w1] eqn:B; simpl in Px; subst w1.
    + rewrite IH. split.
      * intro F. constructor; [rewrite B; reflexivity | exact F].
      * intro F. inversion F; assumption.
    + split; [discriminate |].
      intro F. inversion F as [| ? ? Hx _]. rewrite B in Hx. discriminate.
Qed.

(** The checks of a detail and of an update only read: they leave the
    database, the output and the calls of the client as they were. *)
Theorem checks_only_read
    (self : TestCase) (obj : pyobj) (data results : value) (w : World fw) :
  snd (_check_attributes fw self data w) = w /\
  snd (_update_check_db fw obj data results w) = w.
Proof.
  split; [apply pure_check_attributes | apply pure_update_check_db].
Qed.

(** A detail answered with 200 passes exactly when every entry of
    [attributes_to_check] passes its check against the response data. *)
Theorem detail_passes_when_all_entries_do
    (self : TestCase) (kwargs : list (string * value)) (w w' : World fw)
    (out : result response) (r : response)
    (H : test_detail fw self kwargs w = (out, w'))
    (A : answered w w' r)
    (S : Response.status_code r = 200) :
  out = Ok r <->
  Forall (fun a => fst (check_attribute fw self (Response.data r) a w') = Ok tt)
    (attributes_to_check self).
Proof.
  rewrite (test_detail_after_200 _ _ _ _ _ _ H A S).
  unfold _check_attributes.
  rewrite <- (for_each_passes _ _ w' (pure_check_attribute self (Response.data r))).
  destruct (fst (for_each _ (attributes_to_check self) w')) as [[] | e].
  - split; reflexivity.
  - split; discriminate.
Qed.

(** With the mixin's own [attributes_to_check], [['id']], the id of the
    object is compared as text: a response that gives an integer id as
    the integer fails the test, one that gives it as its decimal text
    passes. *)
Theorem default_id_check_wants_text
    (self : TestCase) (kwargs : list (string * value)) (w w' : World fw)
    (out : result response) (r : response) (z : Z)
    (d : list (string * value))
    (C : attributes_to_check self = [EName "id"])
    (O : obj_getattr (object self) "id" = Some (PVal (VInt z)))
    (H : test_detail fw self kwargs w = (out, w'))
    (A : answered w w' r)
    (S : Response.status_code r = 200)
    (D : Response.data r = VDict d) :
  (assoc "id" d = Some (VInt z) -> out = Err AssertionError) /\
  (assoc "id" d = Some (VStr (decimal z)) -> out = Ok r).
Proof.
  rewrite (test_detail_after_200 _ _ _ _ _ _ H A S).
  unfold _check_attributes. rewrite C, D. simpl for_each.
  split; intro I; unfold_m; rewrite O, I; unfold obj_eq, unicode, py_eq.
  - reflexivity.
  - rewrite String.eqb_refl. reflexivity.
Qed.

(** An entry that is a tuple or a list of a key and a callable compares
    what the callable returns for the object, as it is, with the
    response data at the key; elements after the second are not looked
    at, and what the callable raises comes out of the check. *)
Theorem callable_entry_compared_as_is
    (self : TestCase) (data : value) (kind : seq_kind) (key : string)
    (f : pyobj -> result pyobj) (more : list elem) (w : World fw)
    (K : kind <> KSet) :
  (forall v expected,
      f (object self) = Ok v ->
      getitem data (LStr key) = Ok expected ->
      check_attribute fw self data (ESeq kind (LStr key :: LCall f :: more)) w =
      (if obj_eq v expected then Ok tt else Err AssertionError, w)) /\
  (forall e,
      f (object self) = Err e ->
      check_attribute fw self data (ESeq kind (LStr key :: LCall f :: more)) w =
      (Err e, w)).
Proof.
  split.
  - intros v expected F E. apply pair_entry_checked; assumption.
  - intros e F. destruct kind; [| | contradiction];
      simpl; unfold_m; simpl; rewrite F; reflexivity.
Qed.

(** Entries that cannot be checked end in an exception and not in an
    assertion failure: a tuple or list with fewer than two elements in
    [IndexError], one whose second element is a string in [TypeError],
    a name the object has no attribute for in [AttributeError], a name
    the response data has no key for in [KeyError], and response data
    that is not a dict in [TypeError]. *)
Theorem unusable_entries_raise
    (self : TestCase) (data : value) (w : World fw) :
  (forall kind elems,
      kind <> KSet -> (List.length elems < 2)%nat ->
      check_attribute fw self data (ESeq kind elems) w = (Err IndexError, w)) /\
  (forall kind first s more,
      kind <> KSet ->
      check_attribute fw self data (ESeq kind (first :: LStr s :: more)) w =
      (Err TypeError, w)) /\
  (forall name,
      obj_getattr (object self) name = None ->
      check_attribute fw self data (EName name) w = (Err AttributeError, w)) /\
  (forall name a d,
      obj_getattr (object self) name = Some a ->
      data = VDict d -> assoc name d = None ->
      check_attribute fw self data (EName name) w = (Err KeyError, w)) /\
  (forall name a,
      obj_getattr (object self) name = Some a ->
      (forall d, data <> VDict d) ->
      check_attribute fw self data (EName name) w = (Err TypeError, w)).
Proof.
  repeat match goal with |- _ /\ _ => split end.
  - intros kind elems K L.
    destruct elems as [| x [| y rest]]; simpl in L; try lia;
      destruct kind; try contradiction; reflexivity.
  - intros kind first s more K. destruct kind; try contradiction; reflexivity.
  - intros name N. unfold check_attribute. unfold_m. rewrite N. reflexivity.
  - intros name a d O -> I. unfold check_attribute. unfold_m.
    rewrite O. simpl. rewrite I. reflexivity.
  - intros name a O N. unfold check_attribute. unfold_m. rewrite O.
    destruct data as [| | | | |d]; try reflexivity.
    exfalso. exact (N d eq_refl).
Qed.

(** ** The fixtures of [setUp] *)

Ltac srun :=
  unfold setUp, get_object, get_factory_class, factory_create, token_of,
    client_credentials, login, slift, sbind, sret, with_db in *;
  repeat (step; simpl in *); try discriminate.

(** [setUp] sends no request and prints nothing; it authenticates at
    most once, and not at all without a user factory; and when it
    returns, the configuration of the test is as it was: only the
    object and the user are set. *)
Theorem setUp_frame
    (auth : AuthFramework fw) (self : Fixture fw) (s : Session fw) :
  stdout (world (snd (setUp fw auth self s))) = stdout (world s) /\
  exchanges (world (snd (setUp fw auth self s))) = exchanges (world s) /\
  (auth_calls (snd (setUp fw auth self s)) = auth_calls s \/
   exists c, auth_calls (snd (setUp fw auth self s)) = auth_calls s ++ [c]) /\
  (user_factory self = None ->
   auth_calls (snd (setUp fw auth self s)) = auth_calls s /\
   forall self', fst (setUp fw auth self s) = Ok self' ->
                 user self' = user self) /\
  (forall self',
      fst (setUp fw auth self s) = Ok self' ->
      inst_dict (base self') = inst_dict (base self) /\
      cls_mro (base self') = cls_mro (base self) /\
      attributes_to_check (base self') = attributes_to_check (base self) /\
      user_factory self' = user_factory self /\
      factory_class self' = factory_class self).
Proof.
  destruct (setUp fw auth self s) as [out s'] eqn:H. simpl.
  srun.
  all: repeat match goal with
              | |- _ /\ _ => split
              | |- _ -> _ => intro
              end;
    try reflexivity; try discriminate;
    try (left; reflexivity); try (right; eexists; reflexivity).
  all: match goal with
       | X : Ok _ = Ok _ |- _ =>
           inversion X; subst; simpl; first [reflexivity | congruence]
       end.
Qed.

Lemma token_header_inv key header :
  token_header key = Ok header ->
  exists k, key = PVal (VStr k) /\ header = VStr ("Token " ++ k).
Proof.
  destruct key as [[| | | k | |] | |]; simpl; try discriminate.
  intro H. inversion H. exists k. split; reflexivity.
Qed.

Ltac new_call E :=
  simpl in E;
  first [ exfalso; exact (app_one_neq _ _ E)
        | apply app_one_inj in E; first [discriminate E | inversion E; subst; clear E] ].

(** When [setUp] logs in, the credentials are the username of the user
    the user factory created and the [raw_password] of that factory,
    and token authentication is off. *)
Theorem setUp_login_credentials
    (auth : AuthFramework fw) (self : Fixture fw) (s : Session fw)
    (credentials : value) (accepted : bool)
    (E : auth_calls (snd (setUp fw auth self s)) =
         auth_calls s ++ [Login credentials accepted]) :
  exists f u d name password flag,
    user_factory self = Some f /\
    create f (db (world s)) = (Ok u, d) /\
    attr (base self) "use_token_auth" = Ok flag /\ truthy flag = false /\
    get_username auth u = Ok name /\
    assoc "raw_password" (factory_attrs f) = Some password /\
    credentials = VDict [("username", name); ("password", password)] /\
    accepted = fst (client_login auth credentials d).
Proof.
  destruct (setUp fw auth self s) as [out s'] eqn:H. simpl in E.
  srun.
  all: new_call E.
  all: match goal with
       | G : get_credentials _ _ _ _ = Ok _ |- _ =>
           unfold get_credentials in G; simpl in G; repeat (step; simpl in *);
           try discriminate
       end.
  all: repeat match goal with
              | X : Some _ = Some _ |- _ => inversion X; subst; clear X
              end.
  all: do 6 eexists; repeat split; try eassumption; try reflexivity.
  all: match goal with
       | L : client_login _ _ _ = _ |- _ => rewrite L; reflexivity
       end.
Qed.

(** When [setUp] sets the credentials of the client, the header is
    ['Token '] followed by the key of the token of the user the user
    factory created, and token authentication is on. *)
Theorem setUp_token_header
    (auth : AuthFramework fw) (self : Fixture fw) (s : Session fw)
    (header : value)
    (E : auth_calls (snd (setUp fw auth self s)) =
         auth_calls s ++ [Credentials header]) :
  exists f u d token key flag,
    user_factory self = Some f /\
    create f (db (world s)) = (Ok u, d) /\
    attr (base self) "use_token_auth" = Ok flag /\ truthy flag = true /\
    token_get auth d u = Ok token /\
    obj_getattr token "key" = Some (PVal (VStr key)) /\
    header = VStr ("Token " ++ key).
Proof.
  destruct (setUp fw auth self s) as [out s'] eqn:H. simpl in E.
  srun.
  all: new_call E.
  all: match goal with
       | T : token_header _ = Ok _ |- _ =>
           apply token_header_inv in T; destruct T as (k & -> & ->)
       end.
  all: do 6 eexists; repeat split; try eassumption; reflexivity.
Qed.

(** [factory_class] is required: without it [setUp] does not return
    normally, and with no user factory either it ends in an
    [AttributeError] and has done nothing. *)
Theorem factory_class_is_required
    (auth : AuthFramework fw) (self : Fixture fw) (s : Session fw)
    (N : factory_class self = None) :
  (forall self', fst (setUp fw auth self s) <> Ok self') /\
  (user_factory self = None ->
   setUp fw auth self s = (Err AttributeError, s)).
Proof.
  split.
  - intros self' F.
    destruct (setUp fw auth self s) as [out s'] eqn:H. simpl in F. subst out.
    srun. all: congruence.
  - intro U. unfold setUp, get_object, get_factory_class, factory_create,
      sbind, sret. rewrite U, N. reflexivity.
Qed.

(** When [setUp] returns, the main object is what [factory_class]'s
    [create()] returned, and creating it is the last thing that wrote
    the database; with a user factory the user was created first, on
    the database as [setUp] found it, and is kept as [self.user]. *)
Theorem setUp_creates_user_then_object
    (auth : AuthFramework fw) (self self' : Fixture fw) (s : Session fw)
    (H : fst (setUp fw auth self s) = Ok self') :
  exists f o d,
    factory_class self = Some f /\
    create f d = (Ok o, db (world (snd (setUp fw auth self s)))) /\
    object (base self') = o /\
    (user_factory self = None -> d = db (world s)) /\
    (forall uf,
        user_factory self = Some uf ->
        exists u d1,
          create uf (db (world s)) = (Ok u, d1) /\
          user self' = Some u /\
          (d = d1 \/ exists c, d = snd (client_login auth c d1))).
Proof.
  destruct (setUp fw auth self s) as [out s'] eqn:R. simpl in *. subst out.
  srun.
  all: do 3 eexists; split; [eassumption |]; split; [eassumption |];
    split; [reflexivity |];
    (split; [intro; first [discriminate | reflexivity] |]).
  all: intros uf U; try discriminate U; inversion U; subst.
  all: do 2 eexists; split; [eassumption |]; split; [reflexivity |].
  all: first
         [ left; reflexivity
         | right;
           match goal with
           | L : client_login _ ?c ?d1 = _ |- _ =>
               exists c; rewrite L; reflexivity
           end ].
Qed.


End Properties.

(** ** The mixins and what they expose *)

Example mro_ReadWrite :
  option_map (map cname) (mro testcases "ReadWriteRESTAPITestCaseMixin") =
  Some [ "ReadWriteRESTAPITestCaseMixin"; "ReadRESTAPITestCaseMixin";
         "ListAPITestCaseMixin"; "DetailAPITestCaseMixin";
         "WriteRESTAPITestCaseMixin"; "CreateAPITestCaseMixin";
         "UpdateAPITestCaseMixin"; "DestroyAPITestCaseMixin"; "object" ].
Proof. vm_compute. reflexivity. Qed.

Example mro_LanguageRESTAPITestCase :
  option_map (map cname) (mro Demo.classes "LanguageRESTAPITestCase") =
  Some [ "LanguageRESTAPITestCase"; "ReadWriteRESTAPITestCaseMixin";
         "ReadRESTAPITestCaseMixin"; "ListAPITestCaseMixin";
         "DetailAPITestCaseMixin"; "WriteRESTAPITestCaseMixin";
         "CreateAPITestCaseMixin"; "UpdateAPITestCaseMixin";
         "DestroyAPITestCaseMixin"; "BaseRESTAPITestCase"; "APITestCase";
         "object" ].
Proof. vm_compute. reflexivity. Qed.

(** C7. Each verb mixin defines exactly one public test method, the
    composed mixins define no method, and what they expose through
    inheritance is: the list and detail tests for
    [ReadRESTAPITestCaseMixin]; the create, update and destroy tests for
    [WriteRESTAPITestCaseMixin]; all five, the union of the two, for
    [ReadWriteRESTAPITestCaseMixin]. *)
Theorem one_test_per_mixin :
  own_tests ListAPITestCaseMixin = ["test_list"] /\
  own_tests DetailAPITestCaseMixin = ["test_detail"] /\
  own_tests CreateAPITestCaseMixin = ["test_create"] /\
  own_tests UpdateAPITestCaseMixin = ["test_update"] /\
  own_tests DestroyAPITestCaseMixin = ["test_destroy"] /\
  cmethods ReadRESTAPITestCaseMixin = [] /\
  cmethods WriteRESTAPITestCaseMixin = [] /\
  cmethods ReadWriteRESTAPITestCaseMixin = [] /\
  exposed_tests testcases "ReadRESTAPITestCaseMixin" =
    ["test_list"; "test_detail"] /\
  exposed_tests testcases "WriteRESTAPITestCaseMixin" =
    ["test_create"; "test_update"; "test_destroy"] /\
  exposed_tests testcases "ReadWriteRESTAPITestCaseMixin" =
    exposed_tests testcases "ReadRESTAPITestCaseMixin" ++
    exposed_tests testcases "WriteRESTAPITestCaseMixin" /\
  exposed_tests testcases "ReadWriteRESTAPITestCaseMixin" =
    ["test_list"; "test_detail"; "test_create"; "test_update"; "test_destroy"].
Proof.
  repeat split; vm_compute; reflexivity.
Qed.

(** ** The tests run against the small framework *)

Lemma inherits_intro self c name before after :
  assoc name (inst_dict self) = None ->
  cls_mro self = before ++ c :: after ->
  forallb (fun c' => negb (has_key name (cattrs c'))) before = true ->
  inherits self c name.
Proof.
  intros I E B. split; [exact I |]. exists before, after. split; [exact E |].
  intros c' In'. rewrite forallb_forall in B. specialize (B c' In').
  unfold has_key in B. destruct (assoc name (cattrs c')); [discriminate | reflexivity].
Qed.

Lemma run_eq {A B : Type} (p : A * B) : p = (fst p, snd p).
Proof. destruct p. reflexivity. Qed.

Lemma answered_by {fw : Framework} (w w' : World fw) (req : request) (r : response) :
  exchanges w' = exchanges w ++ [(req, Ok r)] -> answered w w' r.
Proof. intro E. exists req. exact E. Qed.

(** A list answered with 200 and a results page returns; one answered
    with 404 fails the assertion. *)
Lemma status_codes_asserted_witness :
  Response.status_code Demo.page = 200 /\
  fst (test_list Demo.missing Demo.case []
         (Demo.world Demo.missing [Demo.english])) = Err AssertionError.
Proof.
  split.
  - apply (proj1 (status_codes_asserted Demo.listing Demo.case [] VNone VNone VNone
                    (Demo.world Demo.listing [Demo.english]))
             Demo.page
             (snd (test_list Demo.listing Demo.case []
                     (Demo.world Demo.listing [Demo.english])))).
    vm_compute. reflexivity.
  - apply (proj1 (proj2 (proj2 (proj2 (proj2 (proj2
             (status_codes_asserted Demo.missing Demo.case [] VNone VNone VNone
                (Demo.world Demo.missing [Demo.english])))))))
             _ _ Demo.not_found (run_eq _)).
    + eapply answered_by. vm_compute. reflexivity.
    + vm_compute. discriminate.
Defined.

(** A list answered with 200 and the list [['results']] passes, and its
    data is no dict: it has no key at all. *)
Lemma list_without_results_key :
  fst (test_list Demo.naming Demo.case []
         (Demo.world Demo.naming [Demo.english])) = Ok Demo.names /\
  Response.status_code Demo.names = 200 /\
  Response.data Demo.names = VList [VStr "results"] /\
  match Response.data Demo.names with
  | VDict d => has_key "results" d
  | _ => false
  end = false.
Proof.
  split; [vm_compute; reflexivity |]. repeat split.
Qed.

(** An update answered with 404 fails the assertion and prints nothing. *)
Lemma update_not_found_prints_nothing :
  answered (Demo.world Demo.missing [Demo.english])
    (snd (test_update Demo.missing Demo.case Demo.patch VNone VNone []
            (Demo.world Demo.missing [Demo.english])))
    Demo.not_found /\
  Response.status_code Demo.not_found <> 200 /\
  fst (test_update Demo.missing Demo.case Demo.patch VNone VNone []
         (Demo.world Demo.missing [Demo.english])) = Err AssertionError /\
  stdout (snd (test_update Demo.missing Demo.case Demo.patch VNone VNone []
                 (Demo.world Demo.missing [Demo.english]))) = [].
Proof.
  split; [| split; [| split]].
  - eapply answered_by. vm_compute. reflexivity.
  - vm_compute. discriminate.
  - vm_compute. reflexivity.
  - vm_compute. reflexivity.
Qed.

(** A list answered with 404 prints the response data and fails. *)
Lemma unexpected_status_printed_witness :
  stdout (snd (test_list Demo.missing Demo.case []
                 (Demo.world Demo.missing [Demo.english]))) =
    [Response.data Demo.not_found] /\
  fst (test_list Demo.missing Demo.case []
         (Demo.world Demo.missing [Demo.english])) = Err AssertionError.
Proof.
  assert (A : answered (Demo.world Demo.missing [Demo.english])
                (snd (test_list Demo.missing Demo.case []
                        (Demo.world Demo.missing [Demo.english])))
                Demo.not_found).
  { eapply answered_by. vm_compute. reflexivity. }
  apply (proj1 (unexpected_status_printed Demo.missing Demo.case []
                  VNone VNone VNone _ _ _ A) _ (run_eq _)).
  vm_compute. discriminate.
Defined.

(** The pks of the relation posted as the integers the related objects
    have: each posted pk is the pk of a related object, the response is
    200, and the test fails. *)
Lemma posted_pks_compared_as_text :
  Forall (fun pk =>
            Exists (fun item => obj_getattr item "pk" = Some (PVal pk))
              [Demo.tag 1; Demo.tag 2])
    [VInt 1; VInt 2] /\
  obj_getattr Demo.renamed "tags" =
    Some (PManager "tags" [Demo.tag 1; Demo.tag 2]) /\
  answered (Demo.world Demo.updating [Demo.english])
    (snd (test_update Demo.updating Demo.case Demo.retag VNone VNone []
            (Demo.world Demo.updating [Demo.english])))
    Demo.updated /\
  Response.status_code Demo.updated = 200 /\
  fst (test_update Demo.updating Demo.case Demo.retag VNone VNone []
         (Demo.world Demo.updating [Demo.english])) = Err AssertionError.
Proof.
  split; [| split; [| split; [| split]]].
  - constructor; [apply Exists_cons_hd; reflexivity |].
    constructor; [apply Exists_cons_tl, Exists_cons_hd; reflexivity |].
    constructor.
  - vm_compute. reflexivity.
  - eapply answered_by. vm_compute. reflexivity.
  - reflexivity.
  - vm_compute. reflexivity.
Qed.

(** Posted as text, the same pks pass. *)
Example posted_pks_as_text_pass :
  fst (test_update Demo.updating Demo.case Demo.retag_text VNone VNone []
         (Demo.world Demo.updating [Demo.english])) =
  Ok (Demo.updated, Demo.renamed).
Proof. vm_compute. reflexivity. Qed.

(** An update of [code] answered with 200: the object is fetched by
    [pk] and the posted value is checked against the stored one. *)
Lemma update_checks_database_witness :
  objects_get Demo.updating
    (db (snd (test_update Demo.updating Demo.case Demo.patch VNone VNone []
                (Demo.world Demo.updating [Demo.english]))))
    "pk" (PVal (VInt 1)) = Ok Demo.renamed /\
  exists items rv,
    Demo.patch = VDict items /\
    Checked Demo.updating Demo.renamed (VDict []) items rv.
Proof.
  assert (A : answered (Demo.world Demo.updating [Demo.english])
                (snd (test_update Demo.updating Demo.case Demo.patch VNone VNone []
                        (Demo.world Demo.updating [Demo.english])))
                Demo.updated).
  { eapply answered_by. vm_compute. reflexivity. }
  destruct (update_checks_database Demo.updating Demo.case Demo.patch
              VNone VNone [] _ _ _ Demo.updated (run_eq _) A eq_refl)
    as (field & object_id & sent & F & O & S & U).
  vm_compute in F. inversion F; subst field.
  vm_compute in O. inversion O; subst object_id.
  vm_compute in S. inversion S; subst sent.
  destruct (proj1 (U Demo.renamed)) as [G C].
  - vm_compute. reflexivity.
  - split; [exact G | exact C].
Defined.

(** A create answered with 201 returns the stored row; when the
    server stored nothing the test ends in [ObjectDoesNotExist]. *)
Lemma create_checks_database_witness :
  fst (test_create Demo.creating Demo.case VNone []
         (Demo.world Demo.creating [Demo.english])) =
    Ok (Demo.created, Demo.french) /\
  fst (test_create Demo.forgetting Demo.case VNone []
         (Demo.world Demo.forgetting [Demo.english])) =
    Err ObjectDoesNotExist.
Proof.
  split.
  - refine (proj1 (create_checks_database Demo.creating Demo.case VNone []
                     _ _ _ Demo.created (VInt 2) (run_eq _) _ eq_refl eq_refl)
              Demo.french _).
    + eapply answered_by. vm_compute. reflexivity.
    + vm_compute. reflexivity.
  - refine (proj1 (proj2 (create_checks_database Demo.forgetting Demo.case VNone []
                            _ _ _ Demo.created (VInt 2) (run_eq _) _ eq_refl eq_refl))
              _).
    + eapply answered_by. vm_compute. reflexivity.
    + vm_compute. reflexivity.
Defined.

(** A destroy answered with 204: the row is gone when the test
    passes, and the test fails when the row is still there. *)
Lemma destroy_checks_database_witness :
  objects_get Demo.destroying
    (db (snd (test_destroy Demo.destroying Demo.case []
                (Demo.world Demo.destroying [Demo.english]))))
    "pk" (PVal (VInt 1)) = Err ObjectDoesNotExist /\
  fst (test_destroy Demo.keeping Demo.case []
         (Demo.world Demo.keeping [Demo.english])) = Err AssertionError.
Proof.
  split.
  - assert (A : answered (Demo.world Demo.destroying [Demo.english])
                  (snd (test_destroy Demo.destroying Demo.case []
                          (Demo.world Demo.destroying [Demo.english])))
                  Demo.no_content).
    { eapply answered_by. vm_compute. reflexivity. }
    destruct (destroy_checks_database Demo.destroying Demo.case []
                _ _ _ Demo.no_content (run_eq _) A eq_refl)
      as (field & object_id & F & O & _ & _ & gone).
    vm_compute in F. inversion F; subst field.
    vm_compute in O. inversion O; subst object_id.
    apply gone. vm_compute. reflexivity.
  - assert (A : answered (Demo.world Demo.keeping [Demo.english])
                  (snd (test_destroy Demo.keeping Demo.case []
                          (Demo.world Demo.keeping [Demo.english])))
                  Demo.no_content).
    { eapply answered_by. vm_compute. reflexivity. }
    destruct (destroy_checks_database Demo.keeping Demo.case []
                _ _ _ Demo.no_content (run_eq _) A eq_refl)
      as (field & object_id & F & O & _ & kept & _).
    vm_compute in F. inversion F; subst field.
    vm_compute in O. inversion O; subst object_id.
    apply (kept Demo.english). vm_compute. reflexivity.
Defined.

(** A test class that sets [LIST_SUFFIX]: the list name, which
    [test_create] reverses, does not end in ['-list']. *)
Lemma list_suffix_overridden :
  attr (Demo.instance "UnderscoreTestCase" []) "base_name" =
    Ok (VStr "language") /\
  hasattr (Demo.instance "UnderscoreTestCase" []) "create_name" = false /\
  list_view_name (Demo.instance "UnderscoreTestCase" []) =
    Ok (VStr "language_list") /\
  _get_create_name (Demo.instance "UnderscoreTestCase" []) =
    Ok (VStr "language_list") /\
  _get_create_name (Demo.instance "UnderscoreTestCase" []) <>
    Ok (VStr ("language" ++ "-list")) /\
  map (fun x => rurl (fst x))
    (exchanges (snd (test_create Demo.creating
                       (Demo.instance "UnderscoreTestCase" []) VNone []
                       (Demo.world Demo.creating [Demo.english])))) =
    ["language_list"].
Proof.
  repeat split; try (vm_compute; reflexivity).
  vm_compute. discriminate.
Qed.

(** The names of the test class of the small framework, and of one
    that sets [create_name]. *)
Lemma route_names_witness :
  list_view_name Demo.case = Ok (VStr "language-list") /\
  _get_create_name Demo.case = Ok (VStr "language-list") /\
  _get_create_name (Demo.instance "NamedCreateTestCase" []) =
    Ok (VStr "language-create") /\
  _get_destroy_name Demo.case = Ok (VStr "language-detail").
Proof.
  split; [| split; [| split]].
  - exact (proj1 (proj1 (route_names Demo.listing Demo.case "language" eq_refl)
                    "-list" eq_refl)).
  - exact (proj2 (proj1 (route_names Demo.listing Demo.case "language" eq_refl)
                    "-list" eq_refl)).
  - exact (proj2 (proj1 (route_names Demo.listing
                           (Demo.instance "NamedCreateTestCase" [])
                           "language" eq_refl)
                    "-list" eq_refl)).
  - exact (proj2 (proj2 (proj1 (proj2
             (route_names Demo.listing Demo.case "language" eq_refl))
             "-detail" eq_refl))).
Defined.

(** The test class of the small framework does not set
    [update_results]. *)
Lemma update_results_default_witness :
  get_update_results Demo.case Demo.patch = VNone.
Proof.
  apply (proj1 (update_results_default Demo.updating Demo.case
                  (inherits_intro Demo.case UpdateAPITestCaseMixin "update_results"
                     (firstn 7 (cls_mro Demo.case))
                     (skipn 8 (cls_mro Demo.case))
                     eq_refl eq_refl eq_refl))).
Defined.

(** With no data at all the empty dict is posted to the list route;
    with the [create_data] of the test class, that is posted. *)
Lemma create_request_always_sent_witness :
  exchanges (snd (test_create Demo.creating Demo.case VNone []
                    (Demo.world Demo.creating [Demo.english]))) =
    [(mkRequest POST "language-list" (VDict []) [], Ok Demo.created)] /\
  exchanges (snd (test_create Demo.creating Demo.french_case VNone []
                    (Demo.world Demo.creating [Demo.english]))) =
    [(mkRequest POST "language-list" (VDict [("code", VStr "fr")]) [],
      Ok Demo.created)].
Proof.
  split.
  - assert (C : In CreateAPITestCaseMixin (cls_mro Demo.case)).
    { vm_compute. do 6 right. left. reflexivity. }
    destruct (create_request_always_sent Demo.creating Demo.case VNone []
                (Demo.world Demo.creating [Demo.english])
                (VStr "language-list") "language-list" C eq_refl eq_refl)
      as (attribute & A & _ & _ & _ & _ & sent).
    vm_compute in A. inversion A; subst attribute.
    exact sent.
  - assert (C : In CreateAPITestCaseMixin (cls_mro Demo.french_case)).
    { vm_compute. do 6 right. left. reflexivity. }
    destruct (create_request_always_sent Demo.creating Demo.french_case VNone []
                (Demo.world Demo.creating [Demo.english])
                (VStr "language-list") "language-list" C eq_refl eq_refl)
      as (attribute & A & _ & _ & _ & _ & sent).
    vm_compute in A. inversion A; subst attribute.
    exact sent.
Defined.

(** C9 at a set entry: the response is 200 and the attribute matches,
    yet [test_detail] ends in a [TypeError]; the same pair given as a
    tuple passes. *)
Theorem set_entry_fails_detail :
  fst (test_detail Demo.detailing
         (Demo.instance "LanguageRESTAPITestCase"
            [ESeq KSet [LStr "code"; LCall Demo.code_of]])
         [] (Demo.world Demo.detailing [Demo.english])) = Err TypeError /\
  fst (test_detail Demo.detailing
         (Demo.instance "LanguageRESTAPITestCase"
            [ESeq KTuple [LStr "code"; LCall Demo.code_of]])
         [] (Demo.world Demo.detailing [Demo.english])) = Ok Demo.detail.
Proof.
  split; vm_compute; reflexivity.
Qed.

(** ** Further runs against the small framework *)

(** A list that passes has printed nothing. *)
Lemma passing_tests_print_nothing_witness :
  stdout (snd (test_list Demo.listing Demo.case []
                 (Demo.world Demo.listing [Demo.english]))) = [].
Proof.
  apply (proj1 (passing_tests_print_nothing Demo.listing Demo.case []
                  VNone VNone VNone (Demo.world Demo.listing [Demo.english]))
           Demo.page _).
  vm_compute. reflexivity.
Defined.

(** The keyword arguments of a destroy reach the client. *)
Lemma requests_forward_kwargs_witness :
  rverb (mkRequest DELETE "language-detail/1" VNone [("format", VStr "json")])
    = DELETE /\
  rextra (mkRequest DELETE "language-detail/1" VNone [("format", VStr "json")])
    = [("format", VStr "json")].
Proof.
  apply (proj2 (proj2 (proj2
           (requests_forward_kwargs Demo.destroying Demo.case
              [("format", VStr "json")] VNone
              (Demo.world Demo.destroying [Demo.english])
              (mkRequest DELETE "language-detail/1" VNone [("format", VStr "json")])
              (Ok Demo.no_content))))
           _ _ (run_eq _)).
  vm_compute. reflexivity.
Defined.

(** Those of an update do not: the request is a PATCH of the data
    alone. *)
Lemma update_request_witness :
  rverb (mkRequest PATCH "language-detail/1" Demo.patch []) = PATCH /\
  rextra (mkRequest PATCH "language-detail/1" Demo.patch []) = [].
Proof.
  assert (I : inherits Demo.case UpdateAPITestCaseMixin "use_patch").
  { apply (inherits_intro Demo.case UpdateAPITestCaseMixin "use_patch"
             (firstn 7 (cls_mro Demo.case)) (skipn 8 (cls_mro Demo.case)));
      reflexivity. }
  destruct (update_request Demo.updating Demo.case Demo.patch VNone VNone
              [("format", VStr "json")]
              (Demo.world Demo.updating [Demo.english]) _ _
              (mkRequest PATCH "language-detail/1" Demo.patch [])
              (Ok Demo.updated) (run_eq _) eq_refl)
    as (sent & flag & _ & _ & _ & _ & X & P).
  split; [exact (P eq_refl I) | exact X].
Defined.

(** A test of a class whose route does not reverse changes nothing. *)
Lemma no_request_no_effect_witness :
  snd (test_list Demo.listing Demo.unrouted []
         (Demo.world Demo.listing [Demo.english])) =
    Demo.world Demo.listing [Demo.english] /\
  exists e,
    fst (test_list Demo.listing Demo.unrouted []
           (Demo.world Demo.listing [Demo.english])) = Err e.
Proof.
  apply (proj1 (no_request_no_effect Demo.listing Demo.unrouted []
                  VNone VNone VNone
                  (Demo.world Demo.listing [Demo.english]) _ eq_refl)
           _ (run_eq _)).
Defined.

(** A test class without [base_name]. *)
Lemma base_name_is_required_witness :
  test_list Demo.listing Demo.unnamed [] (Demo.world Demo.listing [Demo.english])
  = (Err TypeError, Demo.world Demo.listing [Demo.english]).
Proof.
  apply (proj1 (base_name_is_required Demo.listing Demo.unnamed []
                  VNone VNone VNone (Demo.world Demo.listing [Demo.english])
                  (inherits_intro Demo.unnamed BaseRESTAPITestCase "base_name"
                     (firstn 9 (cls_mro Demo.unnamed))
                     (skipn 10 (cls_mro Demo.unnamed))
                     eq_refl eq_refl eq_refl))).
Defined.

(** An update with no data, answered with 200, does not pass. *)
Lemma update_data_is_required_witness :
  fst (test_update Demo.updating Demo.case VNone VNone VNone []
         (Demo.world Demo.updating [Demo.english])) <>
  Ok (Demo.updated, Demo.renamed).
Proof.
  apply (proj2 (update_data_is_required Demo.updating Demo.case VNone VNone VNone
                  [] (Demo.world Demo.updating [Demo.english]))
           eq_refl
           (inherits_intro Demo.case UpdateAPITestCaseMixin "update_data"
              (firstn 7 (cls_mro Demo.case)) (skipn 8 (cls_mro Demo.case))
              eq_refl eq_refl eq_refl)).
Defined.

(** The list of an unpaginated view fails the list test. *)
Lemma list_envelope_witness :
  fst (test_list Demo.unpaginating Demo.case []
         (Demo.world Demo.unpaginating [Demo.english])) = Err AssertionError.
Proof.
  assert (A : answered (Demo.world Demo.unpaginating [Demo.english])
                (snd (test_list Demo.unpaginating Demo.case []
                        (Demo.world Demo.unpaginating [Demo.english])))
                Demo.unpaginated).
  { eapply answered_by. vm_compute. reflexivity. }
  exact (proj1 (proj2 (list_envelope Demo.unpaginating Demo.case [] _ _ _
                         Demo.unpaginated (run_eq _) A eq_refl))
           _ eq_refl).
Defined.

(** A create answered with 201 and no body. *)
Lemma create_reads_id_from_dict_witness :
  fst (test_create Demo.bare_creating Demo.case VNone []
         (Demo.world Demo.bare_creating [Demo.english])) = Err AttributeError.
Proof.
  assert (A : answered (Demo.world Demo.bare_creating [Demo.english])
                (snd (test_create Demo.bare_creating Demo.case VNone []
                        (Demo.world Demo.bare_creating [Demo.english])))
                Demo.bare).
  { eapply answered_by. vm_compute. reflexivity. }
  apply (proj1 (create_reads_id_from_dict Demo.bare_creating Demo.case VNone []
                  _ _ _ Demo.bare (run_eq _) A eq_refl)).
  intros d. vm_compute. discriminate.
Defined.

(** A destroy after which the row is there twice. *)
Lemma orm_errors_propagate_witness :
  fst (test_destroy Demo.doubling Demo.case []
         (Demo.world Demo.doubling [Demo.english])) =
  Err MultipleObjectsReturned.
Proof.
  assert (A : answered (Demo.world Demo.doubling [Demo.english])
                (snd (test_destroy Demo.doubling Demo.case []
                        (Demo.world Demo.doubling [Demo.english])))
                Demo.no_content).
  { eapply answered_by. vm_compute. reflexivity. }
  apply (proj2 (proj2 (orm_errors_propagate Demo.doubling Demo.case []
                         VNone VNone VNone _ _ Demo.no_content A
                         MultipleObjectsReturned))
           _ ("pk", PVal (VInt 1)) (run_eq _) eq_refl).
  - vm_compute. reflexivity.
  - vm_compute. reflexivity.
  - discriminate.
Defined.

(** The detail test of the small framework passes: its one entry does. *)
Lemma detail_passes_when_all_entries_do_witness :
  Forall
    (fun a =>
       fst (check_attribute Demo.detailing Demo.case
              (Response.data Demo.detail) a
              (snd (test_detail Demo.detailing Demo.case []
                      (Demo.world Demo.detailing [Demo.english])))) = Ok tt)
    (attributes_to_check Demo.case).
Proof.
  assert (A : answered (Demo.world Demo.detailing [Demo.english])
                (snd (test_detail Demo.detailing Demo.case []
                        (Demo.world Demo.detailing [Demo.english])))
                Demo.detail).
  { eapply answered_by. vm_compute. reflexivity. }
  apply (proj1 (detail_passes_when_all_entries_do Demo.detailing Demo.case []
                  _ _ _ Demo.detail (run_eq _) A eq_refl)).
  vm_compute. reflexivity.
Defined.

(** The id given as the integer it is fails the mixin's own check. *)
Lemma default_id_check_wants_text_witness :
  fst (test_detail Demo.numbering Demo.by_id []
         (Demo.world Demo.numbering [Demo.english])) = Err AssertionError.
Proof.
  assert (A : answered (Demo.world Demo.numbering [Demo.english])
                (snd (test_detail Demo.numbering Demo.by_id []
                        (Demo.world Demo.numbering [Demo.english])))
                Demo.numbered).
  { eapply answered_by. vm_compute. reflexivity. }
  exact (proj1 (default_id_check_wants_text Demo.numbering Demo.by_id []
                  _ _ _ Demo.numbered 1
                  [("id", VInt 1); ("code", VStr "en")]
                  eq_refl eq_refl (run_eq _) A eq_refl eq_refl)
           eq_refl).
Defined.

(** A callable that returns the integer id matches the integer. *)
Lemma callable_entry_compared_as_is_witness :
  check_attribute Demo.numbering Demo.by_id (Response.data Demo.numbered)
    (ESeq KTuple [LStr "id"; LCall Demo.id_of])
    (Demo.world Demo.numbering [Demo.english]) =
  (Ok tt, Demo.world Demo.numbering [Demo.english]).
Proof.
  assert (K : KTuple <> KSet) by discriminate.
  exact (proj1 (callable_entry_compared_as_is Demo.numbering Demo.by_id
                  (Response.data Demo.numbered) KTuple "id" Demo.id_of []
                  (Demo.world Demo.numbering [Demo.english]) K)
           (PVal (VInt 1)) (VInt 1) eq_refl eq_refl).
Defined.

(** A tuple of a key alone, and the name of an attribute the object
    does not have. *)
Lemma unusable_entries_raise_witness :
  check_attribute Demo.detailing Demo.case (Response.data Demo.detail)
    (ESeq KTuple [LStr "code"])
    (Demo.world Demo.detailing [Demo.english]) =
    (Err IndexError, Demo.world Demo.detailing [Demo.english]) /\
  check_attribute Demo.detailing Demo.case (Response.data Demo.detail)
    (EName "name")
    (Demo.world Demo.detailing [Demo.english]) =
    (Err AttributeError, Demo.world Demo.detailing [Demo.english]).
Proof.
  assert (K : KTuple <> KSet) by discriminate.
  split.
  - apply (proj1 (unusable_entries_raise Demo.detailing Demo.case
                    (Response.data Demo.detail)
                    (Demo.world Demo.detailing [Demo.english]))
             KTuple [LStr "code"] K).
    simpl. lia.
  - apply (proj1 (proj2 (proj2 (unusable_entries_raise Demo.detailing Demo.case
                    (Response.data Demo.detail)
                    (Demo.world Demo.detailing [Demo.english]))))
             "name" eq_refl).
Defined.

(** Without a user factory [setUp] does not authenticate. *)
Lemma setUp_frame_witness :
  auth_calls (snd (setUp Demo.listing Demo.accepting Demo.anonymous Demo.session))
  = [].
Proof.
  apply (proj1 (proj1 (proj2 (proj2 (proj2
           (setUp_frame Demo.listing Demo.accepting Demo.anonymous
              Demo.session)))) eq_refl)).
Defined.

(** The login of the small framework: alice and her factory's password. *)
Lemma setUp_login_credentials_witness :
  exists f u d name password flag,
    user_factory Demo.member = Some f /\
    create f (db (world Demo.session)) = (Ok u, d) /\
    attr (base Demo.member) "use_token_auth" = Ok flag /\
    truthy flag = false /\
    get_username Demo.accepting u = Ok name /\
    assoc "raw_password" (factory_attrs f) = Some password /\
    VDict [("username", VStr "alice"); ("password", VStr "bellbottoms")] =
      VDict [("username", name); ("password", password)] /\
    true =
      fst (client_login Demo.accepting
             (VDict [("username", VStr "alice"); ("password", VStr "bellbottoms")])
             d).
Proof.
  apply (setUp_login_credentials Demo.listing Demo.accepting Demo.member
           Demo.session
           (VDict [("username", VStr "alice"); ("password", VStr "bellbottoms")])
           true).
  vm_compute. reflexivity.
Defined.

(** The token of the small framework. *)
Lemma setUp_token_header_witness :
  exists f u d token key flag,
    user_factory Demo.token_member = Some f /\
    create f (db (world Demo.session)) = (Ok u, d) /\
    attr (base Demo.token_member) "use_token_auth" = Ok flag /\
    truthy flag = true /\
    token_get Demo.accepting d u = Ok token /\
    obj_getattr token "key" = Some (PVal (VStr key)) /\
    VStr "Token abc123" = VStr ("Token " ++ key).
Proof.
  apply (setUp_token_header Demo.listing Demo.accepting Demo.token_member
           Demo.session (VStr "Token abc123")).
  vm_compute. reflexivity.
Defined.

(** A test class with no factory at all. *)
Lemma factory_class_is_required_witness :
  setUp Demo.listing Demo.accepting Demo.unmade Demo.session =
  (Err AttributeError, Demo.session).
Proof.
  exact (proj2 (factory_class_is_required Demo.listing Demo.accepting
                  Demo.unmade Demo.session eq_refl) eq_refl).
Defined.

(** The object of the small framework's test comes from its factory. *)
Lemma setUp_creates_user_then_object_witness :
  exists f o d,
    factory_class Demo.member = Some f /\
    create f d =
      (Ok o,
       db (world (snd (setUp Demo.listing Demo.accepting Demo.member
                         Demo.session)))) /\
    object (base (set_object Demo.listing
                    (set_user Demo.listing Demo.member Demo.alice)
                    Demo.english)) = o /\
    (user_factory Demo.member = None -> d = db (world Demo.session)) /\
    (forall uf,
        user_factory Demo.member = Some uf ->
        exists u d1,
          create uf (db (world Demo.session)) = (Ok u, d1) /\
          user (set_object Demo.listing
                  (set_user Demo.listing Demo.member Demo.alice)
                  Demo.english) = Some u /\
          (d = d1 \/
           exists c, d = snd (client_login Demo.accepting c d1))).
Proof.
  apply (setUp_creates_user_then_object Demo.listing Demo.accepting
           Demo.member _ Demo.session).
  reflexivity.
Defined.

